(** * wallet_service: the batching send path of [electrum_cmd_util.py]

    A shallow embedding of [ElectrumCmdUtil] and [APICmdUtil]
    (src/electrum_cmd_util.py), which the HTTP handlers of
    src/wallet_service_api.py call with the fields of the request.

    - Python [float] is IEEE 754 binary64: it is Rocq's primitive [float],
      with Python's exceptions written out where an operation can raise.
    - Python [int] is [Z].
    - A coroutine is a function of the state of the process (the request
      store, the wallet's local transactions, the network's mempool, the
      directories the process has made); a polling loop takes the number
      of polls it may make, and reports [Blocked] when it is still waiting
      after that many.
    - electrum, the network, the operating system and the storage under
      the request store are collaborators: what they answer during one
      call is a record [env]. *)

From Stdlib Require Import ZArith List String Bool Lia Floats QArith Qround.
From Stdlib Require Import DecimalString DecimalZ DecimalPos.
Import ListNotations.

Set Warnings "-inexact-float".
Local Open Scope Z_scope.

(** ** Exceptions and outcomes *)

Inductive exn : Type :=
  | ZeroDivisionError
  | OverflowError
  | ValueError
  | TypeError
  | OSError
  | Exception (msg : string).

(** What a call has produced once its polls are used up: a value, a raised
    exception, or nothing yet. *)
Inductive outcome (A : Type) : Type :=
  | Ok (a : A)
  | Raise (e : exn)
  | Blocked.

Arguments Ok {A} a.
Arguments Raise {A} e.
Arguments Blocked {A}.

Definition returned {A} (o : outcome A) : bool :=
  match o with Ok _ => true | _ => false end.

Definition raised {A} (o : outcome A) : bool :=
  match o with Raise _ => true | _ => false end.

Definition obind {A B} (o : outcome A) (k : A -> outcome B) : outcome B :=
  match o with
  | Ok a => k a
  | Raise e => Raise e
  | Blocked => Blocked
  end.

(** ** Python numbers *)

Module PyNum.

Definition Z2SF (z : Z) : spec_float :=
  match z with
  | Z0 => S754_zero false
  | Zpos p => S754_finite false p 0
  | Zneg p => S754_finite true p 0
  end.

(** [float(n)] for an int [n]: the nearest binary64, OverflowError beyond
    the range. *)
Definition float_of_int (n : Z) : outcome float :=
  match binary_normalize prec emax n 0 false with
  | S754_infinity _ => Raise OverflowError
  | sf => Ok (SF2Prim sf)
  end.

(** [a / b] on two ints: the correctly rounded quotient. *)
Definition int_truediv (a b : Z) : outcome float :=
  if b =? 0 then Raise ZeroDivisionError
  else match SFdiv prec emax (Z2SF a) (Z2SF b) with
       | S754_infinity _ => Raise OverflowError
       | sf => Ok (SF2Prim sf)
       end.

(** [n / y] on an int and a float: the int is converted first. *)
Definition int_div_float (n : Z) (y : float) : outcome float :=
  if PrimFloat.eqb y 0%float then Raise ZeroDivisionError
  else obind (float_of_int n) (fun x => Ok (x / y)%float).

(** [int(x)] for a float: truncation toward zero. *)
Definition int_of_float (x : float) : outcome Z :=
  match Prim2SF x with
  | S754_nan => Raise ValueError
  | S754_infinity _ => Raise OverflowError
  | S754_zero _ => Ok 0
  | S754_finite s m e =>
      let v := match e with
               | Zneg p => Z.shiftr (Zpos m) (Zpos p)
               | _ => Z.shiftl (Zpos m) e
               end in
      Ok (if s then - v else v)
  end.

(** The rational a finite float denotes. *)
Definition exact (x : float) : option Q :=
  match Prim2SF x with
  | S754_zero _ => Some (0 # 1)%Q
  | S754_finite s m e =>
      let v := match e with
               | Zneg p => (Zpos m # Pos.pow 2 p)%Q
               | _ => (Z.shiftl (Zpos m) e # 1)%Q
               end in
      Some (if s then Qopp v else v)
  | _ => None
  end.

(** [str(n)] for an int [n]: its decimal digits, with a minus sign when it
    is negative. *)
Definition str_int (n : Z) : string := NilZero.string_of_int (Z.to_int n).

(** [str(x)]: every type of value has its own; that of a str is the
    string itself. *)
Class PyStr (A : Type) : Type := str : A -> string.

#[export] Instance str_of_int : PyStr Z := str_int.

#[export] Instance str_of_str : PyStr string := fun s => s.

End PyNum.
Import PyNum.

Definition COIN : float := 1.0e8%float.

(** ** The request store *)

(** A row of the request table, with the attributes the sources read:
    [obj.sr_id], [tx.address], [tx.amount], [obj.txid], [obj.fee],
    [obj.timestamp_ms]; [wallet_id] is the key [get_unsent] selects on. *)
Record row : Type := {
  sr_id : Z;
  wallet_id : Z;
  address : string;
  amount : Z;
  txid : option string;
  fee : option float;
  timestamp_ms : Z
}.

Record ledger : Type := {
  rows : list row;
  next_sr_id : Z
}.

Module DbManager.

(** A request is Queued while it has no txid (the spec's data model: txid
    is set only when the status is Sent). *)
Definition is_queued (r : row) : bool :=
  match txid r with None => true | Some _ => false end.

Definition is_unsent (wid : Z) (r : row) : bool :=
  (wallet_id r =? wid) && is_queued r.

(** Modelled from the spec: [DbManager.get_unsent] (db_manager.py is not
    among the sources) is the Ledger's [list_queued]: all Queued requests
    of the wallet, oldest first; a read. *)
Definition get_unsent (wid : Z) (l : ledger) : list row :=
  filter (is_unsent wid) (rows l).

(** Modelled from the spec: [DbManager.insert_transaction] is the Ledger's
    [append]: it inserts a new Queued request and returns it with its
    fresh id. The store is taken to be reachable. *)
Definition insert_transaction (addr : string) (sat : Z) (wid : Z) (now : Z)
    (l : ledger) : row * ledger :=
  let obj := {| sr_id := next_sr_id l; wallet_id := wid; address := addr;
                amount := sat; txid := None; fee := None;
                timestamp_ms := now |} in
  (obj, {| rows := rows l ++ [obj]; next_sr_id := next_sr_id l + 1 |}).

(** A row once Sent: the transaction's txid and the row's fee share. *)
Definition mark_sent (tid : string) (share : float) (r : row) : row :=
  {| sr_id := sr_id r; wallet_id := wallet_id r; address := address r;
     amount := amount r; txid := Some tid; fee := Some share;
     timestamp_ms := timestamp_ms r |}.

(** Modelled from the spec: the store once the Ledger's [mark_sent] has
    gone through for the wallet's Queued requests: each has the shared txid
    and its fee share, the other rows are as they were. *)
Definition marked_sent (share : Z -> Z -> float -> float)
    (wid : Z) (tid : string) (total_fee : float) (total_sat_amount : Z)
    (l : ledger) : ledger :=
  {| rows := map (fun r =>
               if is_unsent wid r
               then mark_sent tid (share (amount r) total_sat_amount total_fee) r
               else r) (rows l);
     next_sr_id := next_sr_id l |}.

(** Modelled from the spec: [DbManager.update_transactions] is the Ledger's
    [mark_sent] over the wallet's Queued requests. It is atomic: either all
    of them get the shared txid and their fee share, or it fails (the
    spec's InvalidTransition and PersistenceError) and no row has changed;
    [failure] is the exception the storage meets, if it meets one. The
    arithmetic of the share is the store's and is not among the sources:
    it is the parameter [share]. *)
Definition update_transactions (share : Z -> Z -> float -> float)
    (failure : option exn) (wid : Z) (tid : string) (total_fee : float)
    (total_sat_amount : Z) (l : ledger) : exn + ledger :=
  match failure with
  | Some x => inl x
  | None => inr (marked_sent share wid tid total_fee total_sat_amount l)
  end.

(** Modelled from the spec: [DbManager.get_tx] is the Ledger's [get]: the
    request with this id, if there is one. *)
Definition get_tx (id : Z) (l : ledger) : option row :=
  find (fun r => sr_id r =? id) (rows l).

(** Modelled from the spec: [DbManager.get_all_txs] is the Ledger's
    [list_recent]: the newest [limit] requests, newest first. *)
Definition get_all_txs (limit : nat) (l : ledger) : list row :=
  firstn limit (rev (rows l)).

End DbManager.

(** ** Transactions, the process state and the collaborators *)

(** A transaction the wallet has built: its txid and estimated size are the
    wallet's; [tx_outputs] and [tx_fee] are the outputs and the fee
    [wallet.create_transaction] was asked for (the inputs it selects and
    the change it adds are its own and are not modelled). *)
Record transaction : Type := {
  tx_txid : string;
  tx_outputs : list (string * Z);
  tx_fee : Z;
  tx_estimated_size : Z
}.

Record world : Type := {
  db : ledger;                  (* the request store *)
  wallet_txs : list string;     (* txids the wallet records locally *)
  mempool : list transaction;   (* what the network has accepted *)
  made_dirs : list string       (* the directories os.mkdir has made *)
}.

Record env : Type := {
  (* config.ini *)
  config_api_password : string;
  config_batching_threshold : Z;
  config_wallet_dir : string;
  (* os.path.isdir, and whether os.mkdir makes the directory (it raises an
     OSError when it does not); the file system is shared with other
     processes, so what it answers is the operating system's, call by call *)
  os_path_isdir : string -> bool;
  os_mkdir : string -> bool;
  (* electrum.WalletStorage(path): the password of the wallet file at this
     path, if the file exists *)
  wallet_storage : string -> option string;
  (* network.is_connected() and network.get_fee_estimates() at each poll *)
  is_connected : nat -> bool;
  get_fee_estimates : nat -> list (Z * Z);
  (* electrum.commands.satoshis / satoshis_or_max *)
  satoshis : float -> Z;
  (* wallet.create_transaction: txid and estimated size, or a failure *)
  create_transaction : list (string * Z) -> Z -> option (string * Z);
  (* conf.estimate_fee(size, allow_fallback_to_static_rates = True) *)
  estimate_fee : Z -> Z;
  (* network.broadcast_transaction accepts the transaction *)
  broadcast_transaction : transaction -> bool;
  (* the store's clock and its fee arithmetic; the exception its storage
     meets in update_transactions, if it meets one *)
  now_ms : Z;
  db_fee_share : Z -> Z -> float -> float;
  db_update_failure : option exn;
  (* '{:.8f}'.format *)
  format_8f : float -> string
}.

(** ** The monad of a call: state, exceptions, pending polls *)

Definition M (A : Type) : Type := world -> outcome A * world.

Definition ret {A} (a : A) : M A := fun w => (Ok a, w).

Definition bind {A B} (m : M A) (k : A -> M B) : M B :=
  fun w =>
    match m w with
    | (Ok a, w') => k a w'
    | (Raise e, w') => (Raise e, w')
    | (Blocked, w') => (Blocked, w')
    end.

Definition raise {A} (e : exn) : M A := fun w => (Raise e, w).

Definition lift {A} (o : outcome A) : M A := fun w => (o, w).

(** [try: m except Exception as e: h e] *)
Definition try_except {A} (m : M A) (h : exn -> M A) : M A :=
  fun w =>
    match m w with
    | (Raise e, w') => h e w'
    | r => r
    end.

Definition gets {A} (f : world -> A) : M A := fun w => (Ok (f w), w).

Definition modify (f : world -> world) : M unit := fun w => (Ok tt, f w).

Declare Scope py_scope.
Delimit Scope py_scope with py.
Notation "x <- m ;; k" := (bind m (fun x => k))
  (at level 61, m at next level, right associativity) : py_scope.
Notation "' pat <- m ;; k" := (bind m (fun x => match x with pat => k end))
  (at level 61, pat pattern, m at next level, right associativity) : py_scope.
Notation "m ;; k" := (bind m (fun _ => k))
  (at level 61, right associativity) : py_scope.
Local Open Scope py_scope.

Definition set_db (l : ledger) (w : world) : world :=
  {| db := l; wallet_txs := wallet_txs w; mempool := mempool w;
     made_dirs := made_dirs w |}.

Definition set_wallet_txs (t : list string) (w : world) : world :=
  {| db := db w; wallet_txs := t; mempool := mempool w;
     made_dirs := made_dirs w |}.

Definition set_mempool (p : list transaction) (w : world) : world :=
  {| db := db w; wallet_txs := wallet_txs w; mempool := p;
     made_dirs := made_dirs w |}.

Definition set_made_dirs (d : list string) (w : world) : world :=
  {| db := db w; wallet_txs := wallet_txs w; mempool := mempool w;
     made_dirs := d |}.

(** ** class ElectrumCmdUtil *)

Module ElectrumCmdUtil.

(** [while not self.network.is_connected(): await asyncio.sleep(1)] *)
Fixpoint wait_for_connection (fuel : nat) (e : env) (t : nat) : outcome unit :=
  match fuel with
  | O => Blocked
  | S fuel' =>
      if negb (is_connected e t) then wait_for_connection fuel' e (S t)
      else Ok tt
  end.

(** [while not self.network.get_fee_estimates(): await asyncio.sleep(1)];
    the result is the poll at which the loop ended. *)
Fixpoint wait_for_fee_estimates (fuel : nat) (e : env) (t : nat) : outcome nat :=
  match fuel with
  | O => Blocked
  | S fuel' =>
      match get_fee_estimates e t with
      | [] => wait_for_fee_estimates fuel' e (S t)
      | _ :: _ => Ok t
      end
  end.

(** [os.mkdir(path)] *)
Definition mkdir (e : env) (path : string) : M unit :=
  if os_mkdir e path
  then modify (fun w => set_made_dirs (path :: made_dirs w) w)
  else raise OSError.

(** [_get_wallet_path]: the wallet directory is made when it is not there,
    and the path of the wallet's file is returned; [wallet_id] is whatever
    the caller passed, and goes through [str]. *)
Definition _get_wallet_path {A : Type} {S : PyStr A} (e : env) (wallet_id : A)
    : M string :=
  let wallet_dir := config_wallet_dir e in
  (if negb (os_path_isdir e wallet_dir) then mkdir e wallet_dir else ret tt) ;;
  ret (String.append (String.append (config_wallet_dir e) "/wallet_")
                     (str wallet_id)).

Definition load_wallet (e : env) (wid : Z) (wallet_password : string) : M unit :=
  wallet_path <- _get_wallet_path e wid ;;
  match wallet_storage e wallet_path with
  | None => raise (Exception (String.append wallet_path " does not exist"))
  | Some p =>
      if String.eqb p wallet_password then ret tt
      else raise (Exception "InvalidPassword")
  end.

Definition wallet_remove_transaction (tid : string) : M unit :=
  modify (fun w =>
    set_wallet_txs (filter (fun t => negb (String.eqb t tid)) (wallet_txs w)) w).

Definition wallet_add_transaction (tx : transaction) : M unit :=
  modify (fun w => set_wallet_txs (tx_txid tx :: wallet_txs w) w).

Definition truthy_string (s : string) : bool := negb (String.eqb s EmptyString).

Definition truthy_float (x : float) : bool :=
  negb (PrimFloat.eqb x 0%float).

Definition create_tx (e : env) (destination : option string)
    (amount : option float) (outputs : list (string * float)) (fee : float)
    : M transaction :=
  let final_outputs :=
    match destination, amount with
    | Some d, Some a =>
        if truthy_string d && truthy_float a then [(d, satoshis e a)]
        else map (fun o => (fst o, satoshis e (snd o))) outputs
    | _, _ => map (fun o => (fst o, satoshis e (snd o))) outputs
    end in
  match create_transaction e final_outputs (satoshis e fee) with
  | Some (tid, size) =>
      ret {| tx_txid := tid; tx_outputs := final_outputs;
             tx_fee := satoshis e fee; tx_estimated_size := size |}
  | None => raise (Exception "Failed to create tx for wallet")
  end.

Definition get_tx_size (e : env) (outputs : list (string * float)) : M Z :=
  try_except
    (tx <- create_tx e None None outputs 0.00000001%float ;;
     wallet_remove_transaction (tx_txid tx) ;;
     ret (tx_estimated_size tx))
    (fun _ => raise (Exception "Failed to estimate tx size for wallet")).

Definition async_broadcast (e : env) (tx : transaction) : M unit :=
  try_except
    (if broadcast_transaction e tx
     then modify (fun w => set_mempool (tx :: mempool w) w)
     else raise (Exception "rejected"))
    (fun _ =>
       wallet_remove_transaction (tx_txid tx) ;;
       raise (Exception "Failed to broadcast wallet")).

End ElectrumCmdUtil.

(** ** class APICmdUtil *)

Module APICmdUtil.
Import DbManager ElectrumCmdUtil.

Definition _init_cmd_manager (fuel : nat) (e : env)
    (wallet : option (Z * string)) (network : bool) : M unit :=
  (match wallet with
   | Some (wid, wallet_password) => load_wallet e wid wallet_password
   | None => ret tt
   end) ;;
  if network then lift (wait_for_connection fuel e 0) else ret tt.

(** [fee_estimates.get(2)] *)
Fixpoint dict_get (k : Z) (d : list (Z * Z)) : option Z :=
  match d with
  | [] => None
  | (k', v) :: d' => if k' =? k then Some v else dict_get k d'
  end.

(** The loop over [unsent] of [_get_tx_details]. *)
Fixpoint add_unsent (unsent : list row) (total_sat_amount : Z)
    (outputs : list (string * float)) : outcome (Z * list (string * float)) :=
  match unsent with
  | [] => Ok (total_sat_amount, outputs)
  | tx :: unsent' =>
      obind (int_div_float (amount tx) COIN) (fun a =>
        add_unsent unsent' (total_sat_amount + amount tx)
                   (outputs ++ [(address tx, a)]))
  end.

Definition _get_tx_details (fuel : nat) (e : env) (wid : Z) (addr : string)
    (btc_amount : float) : M (float * float * Z * list (string * float)) :=
  let outputs := [(addr, btc_amount)] in
  sat_amount <- lift (int_of_float (btc_amount * COIN)%float) ;;
  let total_sat_amount := sat_amount in
  unsent <- gets (fun w => get_unsent wid (db w)) ;;
  '(total_sat_amount, outputs) <-
      lift (add_unsent unsent total_sat_amount outputs) ;;
  t <- lift (wait_for_fee_estimates fuel e 0) ;;
  let fee_estimates := get_fee_estimates e t in
  sat_per_b <- lift (match dict_get 2 fee_estimates with
                     | None => Raise TypeError
                     | Some v => obind (int_truediv v 1000)
                                   (fun x => Ok (x / COIN)%float)
                     end) ;;
  total_size <- get_tx_size e outputs ;;
  total_fee <- lift (int_div_float (estimate_fee e total_size) COIN) ;;
  tx_proportion <- lift (int_truediv sat_amount total_sat_amount) ;;
  let this_tx_fee := (tx_proportion * total_fee)%float in
  ret (this_tx_fee, total_fee, total_sat_amount, outputs).

Definition presend (fuel : nat) (e : env) (addr : string) (btc_amount : float)
    (wid : Z) (wallet_password api_password : string) : M float :=
  _init_cmd_manager fuel e (Some (wid, wallet_password)) true ;;
  if negb (String.eqb api_password (config_api_password e))
  then raise (Exception "Incorrect API password")
  else
    '(this_tx_fee, total_fee, total_sat_amount, outputs) <-
        _get_tx_details fuel e wid addr btc_amount ;;
    ret this_tx_fee.

Definition db_insert_transaction (e : env) (addr : string) (sat : Z) (wid : Z)
    : M row :=
  fun w => let '(obj, l) := insert_transaction addr sat wid (now_ms e) (db w) in
           (Ok obj, set_db l w).

Definition db_update_transactions (e : env) (wid : Z) (tid : string)
    (total_fee : float) (total_sat_amount : Z) : M unit :=
  fun w =>
    match update_transactions (db_fee_share e) (db_update_failure e) wid tid
            total_fee total_sat_amount (db w) with
    | inr l => (Ok tt, set_db l w)
    | inl x => (Raise x, w)
    end.

Definition send (fuel : nat) (e : env) (addr : string) (btc_amount : float)
    (wid : Z) (wallet_password api_password : string) : M (float * Z) :=
  _init_cmd_manager fuel e (Some (wid, wallet_password)) true ;;
  if negb (String.eqb api_password (config_api_password e))
  then raise (Exception "Incorrect API password")
  else
    '(this_tx_fee, total_fee, total_sat_amount, outputs) <-
        _get_tx_details fuel e wid addr btc_amount ;;
    batching_threshold <- lift (int_truediv (config_batching_threshold e) 100) ;;
    fee_sat <- lift (int_of_float (total_fee * COIN)%float) ;;
    fee_to_amount_proportion <- lift (int_truediv fee_sat total_sat_amount) ;;
    sat <- lift (int_of_float (btc_amount * COIN)%float) ;;
    obj <- db_insert_transaction e addr sat wid ;;
    let sr_id := sr_id obj in
    (if PrimFloat.leb fee_to_amount_proportion batching_threshold
     then
       tx <- create_tx e None None outputs total_fee ;;
       wallet_add_transaction tx ;;
       try_except
         (async_broadcast e tx ;;
          db_update_transactions e wid (tx_txid tx) total_fee total_sat_amount)
         (fun ex =>
            wallet_remove_transaction (tx_txid tx) ;;
            raise ex)
     else ret tt) ;;
    ret (this_tx_fee, sr_id).

Definition truthy_txid (r : row) : bool :=
  match txid r with
  | Some s => truthy_string s
  | None => false
  end.

Definition status_of (r : row) : string :=
  if truthy_txid r then "sent" else "queued".

(** The dict [get_tx] returns: empty, with or without 'txid' and 'tx_fee'. *)
Inductive tx_info : Type :=
  | NoTx
  | SentTx (txid : string) (timestamp : Z) (addr btc_amount : string)
           (tx_fee : option float)
  | QueuedTx (timestamp : Z) (addr btc_amount : string).

Definition get_tx (e : env) (id : Z) : M tx_info :=
  obj <- gets (fun w => DbManager.get_tx id (db w)) ;;
  match obj with
  | None => ret NoTx
  | Some obj =>
      btc <- lift (int_div_float (amount obj) COIN) ;;
      match txid obj with
      | Some t =>
          if truthy_string t
          then ret (SentTx t (timestamp_ms obj) (address obj)
                      (format_8f e btc) (fee obj))
          else ret (QueuedTx (timestamp_ms obj) (address obj) (format_8f e btc))
      | None => ret (QueuedTx (timestamp_ms obj) (address obj) (format_8f e btc))
      end
  end.

Definition get_send_history (fuel : nat) (e : env) (limit : nat)
    : M (list (Z * Z * string)) :=
  _init_cmd_manager fuel e None false ;;
  objs <- gets (fun w => get_all_txs limit (db w)) ;;
  ret (map (fun tx => (timestamp_ms tx, sr_id tx, status_of tx)) objs).

End APICmdUtil.

(** * Definitions used by the statements *)

Import DbManager ElectrumCmdUtil APICmdUtil.

(** ** A running example: wallet 7, threshold 5 percent, 100 sat per byte *)

(** [int(COIN * Decimal(x))] on the exact value of [x]. *)
Definition demo_satoshis (x : float) : Z :=
  match exact x with
  | Some q => Qfloor (q * (100000000 # 1))
  | None => 0
  end.

Definition demo_txid (n_outputs : nat) : string :=
  String.append "tx" (String (Ascii.ascii_of_nat (48 + n_outputs)) EmptyString).

Definition demo_share (a total : Z) (total_fee : float) : float :=
  match int_truediv a total with
  | Ok p => (p * total_fee)%float
  | _ => nan
  end.

(** The wallet directory is there and holds the file of wallet 7; the
    network is connected from its second poll and has fee estimates from
    its third; a transaction with [n] outputs takes [10 + 70 n] bytes and
    the fee is 100 sat per byte; the storage takes the updates. *)
Definition demo_env : env := {|
  config_api_password := "secret";
  config_batching_threshold := 5;
  config_wallet_dir := "wallets";
  os_path_isdir := fun d => String.eqb d "wallets";
  os_mkdir := fun _ => true;
  wallet_storage := fun path =>
    if String.eqb path "wallets/wallet_7" then Some "hunter2"%string else None;
  is_connected := fun t => (1 <=? t)%nat;
  get_fee_estimates := fun t => if (2 <=? t)%nat then [(2, 100000)] else [];
  satoshis := demo_satoshis;
  create_transaction := fun outs _ =>
    Some (demo_txid (List.length outs), 10 + 70 * Z.of_nat (List.length outs));
  estimate_fee := fun size => 100 * size;
  broadcast_transaction := fun _ => true;
  now_ms := 1600000000000;
  db_fee_share := demo_share;
  db_update_failure := None;
  format_8f := fun _ => "0.00000000"%string
|}.

Definition with_fee_estimates (f : nat -> list (Z * Z)) (e : env) : env := {|
  config_api_password := config_api_password e;
  config_batching_threshold := config_batching_threshold e;
  config_wallet_dir := config_wallet_dir e;
  os_path_isdir := os_path_isdir e;
  os_mkdir := os_mkdir e;
  wallet_storage := wallet_storage e;
  is_connected := is_connected e;
  get_fee_estimates := f;
  satoshis := satoshis e;
  create_transaction := create_transaction e;
  estimate_fee := estimate_fee e;
  broadcast_transaction := broadcast_transaction e;
  now_ms := now_ms e;
  db_fee_share := db_fee_share e;
  db_update_failure := db_update_failure e;
  format_8f := format_8f e
|}.

Definition with_broadcast (f : transaction -> bool) (e : env) : env := {|
  config_api_password := config_api_password e;
  config_batching_threshold := config_batching_threshold e;
  config_wallet_dir := config_wallet_dir e;
  os_path_isdir := os_path_isdir e;
  os_mkdir := os_mkdir e;
  wallet_storage := wallet_storage e;
  is_connected := is_connected e;
  get_fee_estimates := get_fee_estimates e;
  satoshis := satoshis e;
  create_transaction := create_transaction e;
  estimate_fee := estimate_fee e;
  broadcast_transaction := f;
  now_ms := now_ms e;
  db_fee_share := db_fee_share e;
  db_update_failure := db_update_failure e;
  format_8f := format_8f e
|}.

Definition with_create_transaction
    (f : list (string * Z) -> Z -> option (string * Z)) (e : env) : env := {|
  config_api_password := config_api_password e;
  config_batching_threshold := config_batching_threshold e;
  config_wallet_dir := config_wallet_dir e;
  os_path_isdir := os_path_isdir e;
  os_mkdir := os_mkdir e;
  wallet_storage := wallet_storage e;
  is_connected := is_connected e;
  get_fee_estimates := get_fee_estimates e;
  satoshis := satoshis e;
  create_transaction := f;
  estimate_fee := estimate_fee e;
  broadcast_transaction := broadcast_transaction e;
  now_ms := now_ms e;
  db_fee_share := db_fee_share e;
  db_update_failure := db_update_failure e;
  format_8f := format_8f e
|}.

Definition with_is_connected (f : nat -> bool) (e : env) : env := {|
  config_api_password := config_api_password e;
  config_batching_threshold := config_batching_threshold e;
  config_wallet_dir := config_wallet_dir e;
  os_path_isdir := os_path_isdir e;
  os_mkdir := os_mkdir e;
  wallet_storage := wallet_storage e;
  is_connected := f;
  get_fee_estimates := get_fee_estimates e;
  satoshis := satoshis e;
  create_transaction := create_transaction e;
  estimate_fee := estimate_fee e;
  broadcast_transaction := broadcast_transaction e;
  now_ms := now_ms e;
  db_fee_share := db_fee_share e;
  db_update_failure := db_update_failure e;
  format_8f := format_8f e
|}.

Definition with_update_failure (x : option exn) (e : env) : env := {|
  config_api_password := config_api_password e;
  config_batching_threshold := config_batching_threshold e;
  config_wallet_dir := config_wallet_dir e;
  os_path_isdir := os_path_isdir e;
  os_mkdir := os_mkdir e;
  wallet_storage := wallet_storage e;
  is_connected := is_connected e;
  get_fee_estimates := get_fee_estimates e;
  satoshis := satoshis e;
  create_transaction := create_transaction e;
  estimate_fee := estimate_fee e;
  broadcast_transaction := broadcast_transaction e;
  now_ms := now_ms e;
  db_fee_share := db_fee_share e;
  db_update_failure := x;
  format_8f := format_8f e
|}.

(** The wallet directory is not there, and [mk] is whether os.mkdir makes
    it; no wallet file exists. *)
Definition with_no_wallet_dir (mk : bool) (e : env) : env := {|
  config_api_password := config_api_password e;
  config_batching_threshold := config_batching_threshold e;
  config_wallet_dir := config_wallet_dir e;
  os_path_isdir := fun _ => false;
  os_mkdir := fun _ => mk;
  wallet_storage := fun _ => None;
  is_connected := is_connected e;
  get_fee_estimates := get_fee_estimates e;
  satoshis := satoshis e;
  create_transaction := create_transaction e;
  estimate_fee := estimate_fee e;
  broadcast_transaction := broadcast_transaction e;
  now_ms := now_ms e;
  db_fee_share := db_fee_share e;
  db_update_failure := db_update_failure e;
  format_8f := format_8f e
|}.

(** A wallet whose transactions have a txid of their own for each list of
    payees. *)
Definition txid_of_outputs (outs : list (string * Z)) : string :=
  String.append "tx" (String.concat "" (map (fun o => String.append "_" (fst o)) outs)).

Definition demo_env_txids : env :=
  with_create_transaction
    (fun outs _ =>
       Some (txid_of_outputs outs, 10 + 70 * Z.of_nat (List.length outs)))
    demo_env.

(** A wallet that can build the sizing transaction (fee of 1 satoshi) and
    no other: its funds do not cover a real fee. *)
Definition demo_env_no_funds : env :=
  with_create_transaction
    (fun outs f => if f =? 1 then create_transaction demo_env outs f else None)
    demo_env.

Definition queued_row (id wid : Z) (addr : string) (sat : Z) : row :=
  {| sr_id := id; wallet_id := wid; address := addr; amount := sat;
     txid := None; fee := None; timestamp_ms := 1599999990000 |}.

Definition world_of (l : list row) : world :=
  {| db := {| rows := l; next_sr_id := 1 + Z.of_nat (List.length l) |};
     wallet_txs := []; mempool := []; made_dirs := [] |}.

(** The path of the file of a wallet: the value of the last line of
    [_get_wallet_path]. *)
Definition wallet_file {A : Type} {S : PyStr A} (e : env) (wallet_id : A)
    : string :=
  String.append (String.append (config_wallet_dir e) "/wallet_") (str wallet_id).

(** The request store, the wallet's transactions and the mempool are as
    they were. *)
Definition same_state (w w' : world) : Prop :=
  db w' = db w /\ wallet_txs w' = wallet_txs w /\ mempool w' = mempool w.

(** The store is left as it was, and so is the mempool. *)
Definition same_store (w w' : world) : Prop :=
  db w' = db w /\ mempool w' = mempool w.

(** The two states hold the same Queued requests for the wallet. *)
Definition same_unsent (wid : Z) (w1 w2 : world) : Prop :=
  get_unsent wid (db w1) = get_unsent wid (db w2).

(** Lines 267-268 of [_get_tx_details] as a function of a request's amount:
    the share of the batch's fee attributed to a request of [sat_amount]. *)
Definition fee_share (sat_amount total_sat_amount : Z) (total_fee : float)
    : outcome float :=
  obind (int_truediv sat_amount total_sat_amount) (fun tx_proportion =>
    Ok (tx_proportion * total_fee)%float).

Definition sum_amounts (l : list row) : Z :=
  fold_right (fun r acc => amount r + acc) 0 l.

(** The output [_get_tx_details] lists for a Queued request. *)
Definition is_output_of (r : row) (o : string * float) : Prop :=
  fst o = address r /\ int_div_float (amount r) COIN = Ok (snd o).

(** [create_tx]'s outputs for a list of (address, BTC amount) pairs. *)
Definition final_outputs (e : env) (outputs : list (string * float))
    : list (string * Z) :=
  map (fun o => (fst o, satoshis e (snd o))) outputs.

(** Lines 294, 295 and the test of line 301 of [send]: whether the fee
    ratio of the batch is within the configured threshold. *)
Definition within_threshold (e : env) (total_fee : float) (total_sat_amount : Z)
    : outcome bool :=
  obind (int_truediv (config_batching_threshold e) 100) (fun batching_threshold =>
  obind (int_of_float (total_fee * COIN)%float) (fun fee_sat =>
  obind (int_truediv fee_sat total_sat_amount) (fun fee_to_amount_proportion =>
  Ok (PrimFloat.leb fee_to_amount_proportion batching_threshold)))).

(** The ratio test as the specification words it (4.2, steps 4 to 7):
    [total_fee / total_amount <= batching_threshold], on the fee and the
    amount in whole satoshis and the threshold as configured, in percent. *)
Definition spec_ratio_within_threshold (total_fee_sat total_amount percent : Z)
    : bool :=
  total_fee_sat * 100 <=? percent * total_amount.

(** The decision as the specification words it (4.2, step 7): broadcast
    when the fee ratio is within the threshold, or when the batch already
    holds the configured maximum number of requests. *)
Definition spec_broadcast_now (ratio_within_threshold : bool)
    (batch_size max_batch : nat) : bool :=
  ratio_within_threshold || (max_batch <=? batch_size)%nat.

(** The request [send] inserts. *)
Definition new_request (e : env) (addr : string) (sat wid : Z) (l : ledger) : row :=
  {| sr_id := next_sr_id l; wallet_id := wid; address := addr; amount := sat;
     txid := None; fee := None; timestamp_ms := now_ms e |}.

(** The transaction [send] builds for the batch. *)
Definition batch_tx (e : env) (outs : list (string * float)) (total_fee : float)
    (tid : string) (size : Z) : transaction :=
  {| tx_txid := tid; tx_outputs := final_outputs e outs;
     tx_fee := satoshis e total_fee; tx_estimated_size := size |}.

(** Whether the rationals the floats of [l] denote add up to the one [t]
    denotes. *)
Definition exact_sum (l : list float) : option Q :=
  fold_right (fun x acc =>
                match exact x, acc with
                | Some q, Some a => Some (q + a)%Q
                | _, _ => None
                end) (Some (0 # 1)%Q) l.

Definition sums_exactly_to (l : list float) (t : float) : bool :=
  match exact_sum l, exact t with
  | Some a, Some b => Qeq_bool a b
  | _, _ => false
  end.

(** The sum as Python's [sum] computes it, from the left. *)
Definition float_sum (l : list float) : float :=
  fold_left (fun acc x => (acc + x)%float) l 0%float.

(** Whether the number [x] denotes, in satoshis, lies strictly between [n]
    and [n + 1]. *)
Definition strictly_between_satoshis (x : float) (n : Z) : bool :=
  match exact x with
  | Some q =>
      negb (Qle_bool (q * (100000000 # 1)) (n # 1)) &&
      negb (Qle_bool ((n + 1) # 1) (q * (100000000 # 1)))
  | None => false
  end.

(** ** The life of a request *)

(** A row is as it was, or it was Queued and is now Sent, the request it
    records being the same. *)
Definition row_evolves (r r' : row) : Prop :=
  r' = r \/
  (is_queued r = true /\ is_queued r' = false /\
   sr_id r' = sr_id r /\ wallet_id r' = wallet_id r /\
   address r' = address r /\ amount r' = amount r /\
   timestamp_ms r' = timestamp_ms r).

Definition ledger_evolves (l l' : ledger) : Prop :=
  forall i r, nth_error (rows l) i = Some r ->
    exists r', nth_error (rows l') i = Some r' /\ row_evolves r r'.

Definition store_evolves (w w' : world) : Prop :=
  ledger_evolves (db w) (db w').

(** The calls the HTTP front end makes. *)
Inductive api_call : Type :=
  | Presend (addr : string) (btc_amount : float) (wid : Z)
            (wallet_password api_password : string)
  | Send (addr : string) (btc_amount : float) (wid : Z)
         (wallet_password api_password : string)
  | GetTx (id : Z)
  | GetSendHistory (limit : nat).

(** The state a call leaves, given the polls it may make and what the
    collaborators answer. *)
Definition run (fuel : nat) (e : env) (c : api_call) (w : world) : world :=
  match c with
  | Presend addr btc_amount wid wp ap =>
      snd (presend fuel e addr btc_amount wid wp ap w)
  | Send addr btc_amount wid wp ap =>
      snd (send fuel e addr btc_amount wid wp ap w)
  | GetTx id => snd (APICmdUtil.get_tx e id w)
  | GetSendHistory limit => snd (get_send_history fuel e limit w)
  end.

(** The states reached by any sequence of calls, each with collaborators
    of its own. *)
Inductive reachable : world -> world -> Prop :=
  | reach_refl w : reachable w w
  | reach_call fuel e c w w' :
      reachable (run fuel e c w) w' -> reachable w w'.

(** ** Invariants of the store and of the wallet *)

(** The call broadcasts nothing, leaves the store as it was and records no
    new transaction at the wallet. *)
Definition quiet (w w' : world) : Prop :=
  db w' = db w /\ mempool w' = mempool w /\
  incl (wallet_txs w') (wallet_txs w).

(** Every request marked with a txid has a transaction with that txid among
    those the network accepted. *)
Definition sent_rows_backed (w : world) : Prop :=
  forall r t, In r (rows (db w)) -> txid r = Some t ->
    exists tx, In tx (mempool w) /\ tx_txid tx = t.

(** The mempool only grows, and a txid of the store is one the store held
    or the txid of an accepted transaction. *)
Definition backed_step (w w' : world) : Prop :=
  incl (mempool w) (mempool w') /\
  forall r' t, In r' (rows (db w')) -> txid r' = Some t ->
    (exists r, In r (rows (db w)) /\ txid r = Some t) \/
    (exists tx, In tx (mempool w') /\ tx_txid tx = t).

(** Request ids are pairwise distinct and below the next id. *)
Definition ledger_wf (l : ledger) : Prop :=
  NoDup (map sr_id (rows l)) /\
  Forall (fun r => sr_id r < next_sr_id l) (rows l).

Definition wf_step (w w' : world) : Prop :=
  ledger_wf (db w) -> ledger_wf (db w').


(** The 'txid' of the dict [get_tx] returns. *)
Definition info_txid (i : tx_info) : option string :=
  match i with
  | SentTx t _ _ _ _ => Some t
  | _ => None
  end.

(** The requests of the wallets other than [wid] are as they were, each
    in its place. *)
Definition others_untouched (wid : Z) (w w' : world) : Prop :=
  forall i r, nth_error (rows (db w)) i = Some r -> wallet_id r <> wid ->
    nth_error (rows (db w')) i = Some r.

(** The two states hold the same store. *)
Definition same_db (w1 w2 : world) : Prop := db w1 = db w2.

(** ** Properties of a call *)

(** Every run of [m] leaves a state related by [R] to the one it started
    from, whatever its outcome. *)
Definition preserves (R : world -> world -> Prop) {A} (m : M A) : Prop :=
  forall w, R w (snd (m w)).

(** Run from two states related by [R], [m] has the same outcome and leaves
    states related by [R]. *)
Definition respects (R : world -> world -> Prop) {A} (m : M A) : Prop :=
  forall w1 w2, R w1 w2 ->
    fst (m w1) = fst (m w2) /\ R (snd (m w1)) (snd (m w2)).

(** A relation between two states that does not look at the directories
    made. *)
Definition ignores_made_dirs (R : world -> world -> Prop) : Prop :=
  forall w1 w2 d1 d2, R w1 w2 -> R (set_made_dirs d1 w1) (set_made_dirs d2 w2).

(** * Reasoning rules *)

(** ** A relation every step of a call maintains *)

Section Preserves.
Variable R : world -> world -> Prop.
Hypothesis R_refl : forall w, R w w.
Hypothesis R_trans : forall a b c, R a b -> R b c -> R a c.

Lemma preserves_ret {A} (a : A) : preserves R (ret a).
Proof. intro w; apply R_refl. Qed.

Lemma preserves_raise {A} (e : exn) : preserves R (@raise A e).
Proof. intro w; apply R_refl. Qed.

Lemma preserves_lift {A} (o : outcome A) : preserves R (lift o).
Proof. intro w; apply R_refl. Qed.

Lemma preserves_gets {A} (f : world -> A) : preserves R (gets f).
Proof. intro w; apply R_refl. Qed.

Lemma preserves_modify (f : world -> world) :
  (forall w, R w (f w)) -> preserves R (modify f).
Proof. intros H w; apply H. Qed.

Lemma preserves_bind {A B} (m : M A) (k : A -> M B) :
  preserves R m -> (forall a, preserves R (k a)) -> preserves R (bind m k).
Proof.
  intros Hm Hk w. unfold bind.
  specialize (Hm w). destruct (m w) as [[a | e |] w1]; simpl in *; trivial.
  eapply R_trans; [exact Hm | apply Hk].
Qed.

Lemma preserves_try_except {A} (m : M A) (h : exn -> M A) :
  preserves R m -> (forall e, preserves R (h e)) -> preserves R (try_except m h).
Proof.
  intros Hm Hh w. unfold try_except.
  specialize (Hm w). destruct (m w) as [[a | e |] w1]; simpl in *; trivial.
  eapply R_trans; [exact Hm | apply Hh].
Qed.

End Preserves.

(** Solves [preserves R m] by the structure of [m]; [tac] closes the
    steps that write the state. *)
Ltac preserves_step Hrefl Htrans tac :=
  lazymatch goal with
  | |- preserves _ (ret _) => apply preserves_ret; exact Hrefl
  | |- preserves _ (raise _) => apply preserves_raise; exact Hrefl
  | |- preserves _ (lift _) => apply preserves_lift; exact Hrefl
  | |- preserves _ (gets _) => apply preserves_gets; exact Hrefl
  | |- preserves _ (bind _ _) => apply preserves_bind; [exact Htrans | | intro]
  | |- preserves _ (try_except _ _) =>
      apply preserves_try_except; [exact Htrans | | intro]
  | |- preserves _ (modify _) => apply preserves_modify; intro; tac
  | |- preserves _ (let _ := _ in _) => cbv zeta
  | |- preserves _ (match ?x with _ => _ end) => destruct x
  | |- _ => tac
  end.

Ltac preserves_with Hrefl Htrans tac :=
  repeat preserves_step Hrefl Htrans tac.

Lemma same_store_refl w : same_store w w.
Proof. split; reflexivity. Qed.

Lemma same_store_trans a b c :
  same_store a b -> same_store b c -> same_store a c.
Proof. intros [H1 H2] [H3 H4]; split; congruence. Qed.

Lemma get_wallet_path_same_store {A} {S : PyStr A} e (i : A) :
  preserves same_store (_get_wallet_path e i).
Proof.
  unfold _get_wallet_path, mkdir.
  preserves_with same_store_refl same_store_trans ltac:(split; reflexivity).
Qed.

Lemma load_wallet_same_store e wid p : preserves same_store (load_wallet e wid p).
Proof.
  unfold load_wallet.
  preserves_with same_store_refl same_store_trans
    ltac:(first [apply get_wallet_path_same_store]).
Qed.

Lemma init_cmd_manager_same_store fuel e wl n :
  preserves same_store (_init_cmd_manager fuel e wl n).
Proof.
  unfold _init_cmd_manager.
  preserves_with same_store_refl same_store_trans
    ltac:(first [apply load_wallet_same_store]).
Qed.

Lemma wallet_remove_same_store tid :
  preserves same_store (wallet_remove_transaction tid).
Proof.
  unfold wallet_remove_transaction.
  apply preserves_modify. intro w. split; reflexivity.
Qed.

Lemma create_tx_same_store e d a o f : preserves same_store (create_tx e d a o f).
Proof.
  unfold create_tx.
  preserves_with same_store_refl same_store_trans idtac.
Qed.

Lemma get_tx_size_same_store e o : preserves same_store (get_tx_size e o).
Proof.
  unfold get_tx_size.
  preserves_with same_store_refl same_store_trans
    ltac:(first [apply create_tx_same_store | apply wallet_remove_same_store]).
Qed.

Lemma get_tx_details_same_store fuel e wid addr btc :
  preserves same_store (_get_tx_details fuel e wid addr btc).
Proof.
  unfold _get_tx_details.
  preserves_with same_store_refl same_store_trans
    ltac:(first [apply get_tx_size_same_store]).
Qed.

Lemma presend_same_store fuel e addr btc wid wp ap :
  preserves same_store (presend fuel e addr btc wid wp ap).
Proof.
  unfold presend.
  preserves_with same_store_refl same_store_trans
    ltac:(first [apply init_cmd_manager_same_store
                | apply get_tx_details_same_store]).
Qed.

(** ** Polling loops *)

Lemma wait_for_connection_connects e k :
  forall fuel t, (t <= k < t + fuel)%nat -> is_connected e k = true ->
    wait_for_connection fuel e t = Ok tt.
Proof.
  induction fuel as [| fuel IH]; intros t Hk Hc; simpl.
  - lia.
  - destruct (is_connected e t) eqn:E; simpl; trivial.
    apply IH; trivial.
    assert (t <> k) by congruence. lia.
Qed.

Lemma wait_for_connection_never_raises e :
  forall fuel t, raised (wait_for_connection fuel e t) = false.
Proof.
  induction fuel as [| fuel IH]; intros t; simpl; trivial.
  destruct (is_connected e t); simpl; trivial.
Qed.

Lemma wait_for_connection_ok_inv e :
  forall fuel t, wait_for_connection fuel e t = Ok tt ->
    exists k, (t <= k < t + fuel)%nat /\ is_connected e k = true.
Proof.
  induction fuel as [| fuel IH]; intros t H; simpl in H; [discriminate |].
  destruct (is_connected e t) eqn:E; simpl in H.
  - exists t. split; [lia | exact E].
  - destruct (IH _ H) as [k [Hk Hc]]. exists k. split; [lia | exact Hc].
Qed.

Lemma wait_for_fee_estimates_first e k :
  forall fuel t, (t <= k < t + fuel)%nat ->
    (forall j, (t <= j < k)%nat -> get_fee_estimates e j = []) ->
    get_fee_estimates e k <> [] ->
    wait_for_fee_estimates fuel e t = Ok k.
Proof.
  induction fuel as [| fuel IH]; intros t Hk Hj Hr; simpl.
  - lia.
  - destruct (Nat.eq_dec t k) as [-> | Hne].
    + destruct (get_fee_estimates e k); congruence.
    + rewrite (Hj t) by lia. apply IH; trivial; try lia.
      intros j Hlt; apply Hj; lia.
Qed.

Lemma wait_for_fee_estimates_blocked e :
  forall fuel t,
    (forall j, (t <= j < t + fuel)%nat -> get_fee_estimates e j = []) ->
    wait_for_fee_estimates fuel e t = Blocked.
Proof.
  induction fuel as [| fuel IH]; intros t Hj; simpl; trivial.
  rewrite (Hj t) by lia. apply IH. intros j Hlt; apply Hj; lia.
Qed.

Lemma wait_for_fee_estimates_never_raises e :
  forall fuel t, raised (wait_for_fee_estimates fuel e t) = false.
Proof.
  induction fuel as [| fuel IH]; intros t; simpl; trivial.
  destruct (get_fee_estimates e t); simpl; trivial.
Qed.

(** ** The command manager and the password check *)

Lemma same_state_refl w : same_state w w.
Proof. repeat split; reflexivity. Qed.

Lemma same_state_trans a b c :
  same_state a b -> same_state b c -> same_state a c.
Proof. intros [H1 [H2 H3]] [H4 [H5 H6]]; repeat split; congruence. Qed.

(** What [_get_wallet_path] does, case by case. *)
Lemma get_wallet_path_result {A} {S : PyStr A} e (i : A) w :
  _get_wallet_path e i w =
  if os_path_isdir e (config_wallet_dir e) then (Ok (wallet_file e i), w)
  else if os_mkdir e (config_wallet_dir e)
       then (Ok (wallet_file e i),
             set_made_dirs (config_wallet_dir e :: made_dirs w) w)
       else (Raise OSError, w).
Proof.
  unfold _get_wallet_path, mkdir, bind, wallet_file.
  destruct (os_path_isdir e (config_wallet_dir e)); [reflexivity |].
  destruct (os_mkdir e (config_wallet_dir e)); reflexivity.
Qed.

Lemma load_wallet_same_state e wid p : preserves same_state (load_wallet e wid p).
Proof.
  unfold load_wallet, _get_wallet_path, mkdir.
  preserves_with same_state_refl same_state_trans
    ltac:(repeat split; reflexivity).
Qed.

(** With the wallet directory in place [load_wallet] changes nothing. *)
Lemma load_wallet_world e wid p w :
  os_path_isdir e (config_wallet_dir e) = true ->
  snd (load_wallet e wid p w) = w.
Proof.
  intro Hd. unfold load_wallet, bind. rewrite get_wallet_path_result, Hd.
  destruct (wallet_storage e _) as [q |]; [| reflexivity].
  destruct (String.eqb q p); reflexivity.
Qed.

(** [_init_cmd_manager], from the outcome of [load_wallet] on. *)
Lemma init_cmd_manager_result fuel e wid p w :
  _init_cmd_manager fuel e (Some (wid, p)) true w =
  match load_wallet e wid p w with
  | (Ok _, w0) => (wait_for_connection fuel e 0, w0)
  | r => r
  end.
Proof.
  unfold _init_cmd_manager, bind, lift.
  destruct (load_wallet e wid p w) as [[[] | x |] w0]; reflexivity.
Qed.

Lemma init_cmd_manager_ok fuel e wid p k w :
  os_path_isdir e (config_wallet_dir e) = true ->
  wallet_storage e (wallet_file e wid) = Some p ->
  (k < fuel)%nat -> is_connected e k = true ->
  _init_cmd_manager fuel e (Some (wid, p)) true w = (Ok tt, w).
Proof.
  intros Hd Hs Hk Hc.
  rewrite init_cmd_manager_result.
  unfold load_wallet, bind. rewrite get_wallet_path_result, Hd, Hs.
  rewrite String.eqb_refl. unfold ret.
  rewrite (wait_for_connection_connects e k) by (trivial; lia).
  reflexivity.
Qed.

(** [load_wallet] does not wait: it returns or raises. *)
Lemma load_wallet_not_blocked e wid p w : fst (load_wallet e wid p w) <> Blocked.
Proof.
  unfold load_wallet, bind. rewrite get_wallet_path_result.
  destruct (os_path_isdir e _); [| destruct (os_mkdir e _)];
    try discriminate;
    (destruct (wallet_storage e _) as [q |]; [| discriminate];
     destruct (String.eqb q p); discriminate).
Qed.

Lemma password_check_fails ap e :
  ap <> config_api_password e ->
  negb (String.eqb ap (config_api_password e)) = true.
Proof.
  intro H. destruct (String.eqb_spec ap (config_api_password e)); trivial.
  contradiction.
Qed.

Lemma wait_for_connection_blocked e :
  forall fuel t,
    (forall j, (t <= j < t + fuel)%nat -> is_connected e j = false) ->
    wait_for_connection fuel e t = Blocked.
Proof.
  induction fuel as [| fuel IH]; intros t Hj; simpl; trivial.
  rewrite (Hj t) by lia. simpl. apply IH. intros j Hlt; apply Hj; lia.
Qed.

(** What [send] and [presend] do up to the password check. *)
Lemma rejected_call {A} fuel e wid wp ap (k : M A) w :
  ap <> config_api_password e ->
  let m := (_init_cmd_manager fuel e (Some (wid, wp)) true ;;
            if negb (String.eqb ap (config_api_password e))
            then raise (Exception "Incorrect API password")
            else k) in
  same_state w (snd (m w)) /\
  (os_path_isdir e (config_wallet_dir e) = true -> snd (m w) = w) /\
  returned (fst (m w)) = false /\
  ((exists j, (j < fuel)%nat /\ is_connected e j = true) ->
     raised (fst (m w)) = true) /\
  (fst (load_wallet e wid wp w) = Ok tt ->
   (exists j, (j < fuel)%nat /\ is_connected e j = true) ->
     fst (m w) = Raise (Exception "Incorrect API password")) /\
  (fst (load_wallet e wid wp w) = Ok tt ->
   (forall j, (j < fuel)%nat -> is_connected e j = false) ->
     fst (m w) = Blocked) /\
  (forall x, fst (load_wallet e wid wp w) = Raise x -> fst (m w) = Raise x).
Proof.
  intros Hap m. subst m. unfold bind.
  rewrite (password_check_fails _ _ Hap).
  rewrite init_cmd_manager_result.
  pose proof (load_wallet_same_state e wid wp w) as Hs.
  pose proof (load_wallet_world e wid wp w) as Hw.
  pose proof (load_wallet_not_blocked e wid wp w) as Hnb.
  destruct (load_wallet e wid wp w) as [[[] | x |] w0]; simpl in Hs, Hw, Hnb.
  - destruct (wait_for_connection fuel e 0) as [[] | y |] eqn:Ew; simpl.
    + repeat split; try apply Hs; trivial; try discriminate.
      intros _ Hno. destruct (wait_for_connection_ok_inv e fuel 0%nat Ew)
        as [j [Hj Hc]].
      rewrite Hno in Hc by lia. discriminate.
    + pose proof (wait_for_connection_never_raises e fuel 0%nat) as Hr.
      rewrite Ew in Hr. discriminate.
    + repeat split; try apply Hs; trivial; try discriminate.
      * intros [j [Hj Hc]].
        rewrite (wait_for_connection_connects e j) in Ew by (trivial; lia).
        discriminate.
      * intros _ [j [Hj Hc]].
        rewrite (wait_for_connection_connects e j) in Ew by (trivial; lia).
        discriminate.
  - simpl. repeat split; try apply Hs; trivial; try discriminate.
    intros y Hy. inversion Hy. reflexivity.
  - contradiction Hnb; reflexivity.
Qed.

(** ** The estimation phase while the oracle has no data *)

Lemma get_tx_details_not_returned fuel e wid addr btc w :
  (forall j, (j < fuel)%nat -> get_fee_estimates e j = []) ->
  returned (fst (_get_tx_details fuel e wid addr btc w)) = false.
Proof.
  intro Hno. unfold _get_tx_details, bind, lift, gets.
  destruct (int_of_float (btc * COIN)) as [sat | x |]; simpl; trivial.
  destruct (add_unsent (get_unsent wid (db w)) sat [(addr, btc)])
    as [[tot outs] | x |]; simpl; trivial.
  rewrite wait_for_fee_estimates_blocked by (intros j Hj; apply Hno; lia).
  reflexivity.
Qed.

Lemma get_tx_details_blocked fuel e wid addr btc w sat tot outs :
  int_of_float (btc * COIN) = Ok sat ->
  add_unsent (get_unsent wid (db w)) sat [(addr, btc)] = Ok (tot, outs) ->
  (forall j, (j < fuel)%nat -> get_fee_estimates e j = []) ->
  _get_tx_details fuel e wid addr btc w = (Blocked, w).
Proof.
  intros Hsat Hadd Hno. unfold _get_tx_details, bind, lift, gets.
  rewrite Hsat, Hadd.
  rewrite wait_for_fee_estimates_blocked by (intros j Hj; apply Hno; lia).
  reflexivity.
Qed.

(** ** What a call's result depends on *)

Section Respects.
Variable R : world -> world -> Prop.

Lemma respects_ret {A} (a : A) : respects R (ret a).
Proof. intros w1 w2 H; split; trivial. Qed.

Lemma respects_raise {A} (e : exn) : respects R (@raise A e).
Proof. intros w1 w2 H; split; trivial. Qed.

Lemma respects_lift {A} (o : outcome A) : respects R (lift o).
Proof. intros w1 w2 H; split; trivial. Qed.

Lemma respects_gets {A} (f : world -> A) :
  (forall w1 w2, R w1 w2 -> f w1 = f w2) -> respects R (gets f).
Proof. intros Hf w1 w2 H; split; simpl; trivial. f_equal; auto. Qed.

Lemma respects_modify (f : world -> world) :
  (forall w1 w2, R w1 w2 -> R (f w1) (f w2)) -> respects R (modify f).
Proof. intros Hf w1 w2 H; split; simpl; auto. Qed.

Lemma respects_bind {A B} (m : M A) (k : A -> M B) :
  respects R m -> (forall a, respects R (k a)) -> respects R (bind m k).
Proof.
  intros Hm Hk w1 w2 H. unfold bind.
  destruct (Hm w1 w2 H) as [Hf Hs].
  destruct (m w1) as [o1 v1], (m w2) as [o2 v2]; simpl in *; subst o2.
  destruct o1 as [a | e |]; simpl; auto.
  apply Hk; trivial.
Qed.

Lemma respects_try_except {A} (m : M A) (h : exn -> M A) :
  respects R m -> (forall e, respects R (h e)) -> respects R (try_except m h).
Proof.
  intros Hm Hh w1 w2 H. unfold try_except.
  destruct (Hm w1 w2 H) as [Hf Hs].
  destruct (m w1) as [o1 v1], (m w2) as [o2 v2]; simpl in *; subst o2.
  destruct o1 as [a | e |]; simpl; auto.
  apply Hh; trivial.
Qed.
End Respects.

Ltac respects_step tac :=
  lazymatch goal with
  | |- respects _ (ret _) => apply respects_ret
  | |- respects _ (raise _) => apply respects_raise
  | |- respects _ (lift _) => apply respects_lift
  | |- respects _ (gets _) => apply respects_gets; tac
  | |- respects _ (bind _ _) => apply respects_bind; [| intro]
  | |- respects _ (try_except _ _) => apply respects_try_except; [| intro]
  | |- respects _ (modify _) => apply respects_modify; tac
  | |- respects _ (match ?x with _ => _ end) => destruct x
  | |- _ => tac
  end.

Lemma same_unsent_ignores_made_dirs wid : ignores_made_dirs (same_unsent wid).
Proof. intros w1 w2 d1 d2 H. exact H. Qed.

Lemma same_db_ignores_made_dirs : ignores_made_dirs same_db.
Proof. intros w1 w2 d1 d2 H. exact H. Qed.

Lemma load_wallet_respects R e wid p :
  ignores_made_dirs R -> respects R (load_wallet e wid p).
Proof.
  intro HR. unfold load_wallet, _get_wallet_path, mkdir.
  repeat respects_step ltac:(intros w1 w2 H; apply HR, H).
Qed.

Lemma init_cmd_manager_respects R fuel e wl n :
  ignores_made_dirs R -> respects R (_init_cmd_manager fuel e wl n).
Proof.
  intro HR. unfold _init_cmd_manager.
  repeat respects_step ltac:(first [apply load_wallet_respects; exact HR]).
Qed.

Lemma create_tx_respects R e d a o f : respects R (create_tx e d a o f).
Proof. unfold create_tx. repeat respects_step idtac. Qed.

Lemma wallet_remove_respects wid tid :
  respects (same_unsent wid) (wallet_remove_transaction tid).
Proof.
  unfold wallet_remove_transaction. apply respects_modify.
  intros w1 w2 H; exact H.
Qed.

Lemma get_tx_size_respects wid e o : respects (same_unsent wid) (get_tx_size e o).
Proof.
  unfold get_tx_size.
  repeat respects_step
    ltac:(first [apply create_tx_respects | apply wallet_remove_respects]).
Qed.

Lemma get_tx_details_respects fuel e wid addr btc :
  respects (same_unsent wid) (_get_tx_details fuel e wid addr btc).
Proof.
  unfold _get_tx_details.
  repeat respects_step
    ltac:(first [apply get_tx_size_respects | intros w1 w2 H; exact H]).
Qed.

Lemma presend_respects fuel e addr btc wid wp ap :
  respects (same_unsent wid) (presend fuel e addr btc wid wp ap).
Proof.
  unfold presend.
  repeat respects_step
    ltac:(first [apply init_cmd_manager_respects;
                 apply same_unsent_ignores_made_dirs
                | apply get_tx_details_respects]).
Qed.

(** [send] writes the store only after [_get_tx_details] has returned. *)
Lemma send_store_before_details fuel e addr btc wid wp ap w :
  returned (fst (_get_tx_details fuel e wid addr btc w)) = false ->
  db (snd (send fuel e addr btc wid wp ap w)) = db w.
Proof.
  intro Hnr. unfold send, bind.
  destruct (init_cmd_manager_same_store fuel e (Some (wid, wp)) true w)
    as [Hdb0 _].
  destruct (_init_cmd_manager fuel e (Some (wid, wp)) true w)
    as [[[] | x |] w0]; simpl in Hdb0; simpl; trivial.
  destruct (negb (String.eqb ap (config_api_password e))); [exact Hdb0 |].
  destruct (get_tx_details_respects fuel e wid addr btc w0 w) as [Hout _].
  { unfold same_unsent. rewrite Hdb0. reflexivity. }
  rewrite <- Hout in Hnr.
  destruct (get_tx_details_same_store fuel e wid addr btc w0) as [Hdb _].
  destruct (_get_tx_details fuel e wid addr btc w0)
    as [[[[[a b] c] d] | x |] w1]; simpl in *; try congruence.
Qed.

(** ** The estimation phase, step by step *)

Lemma add_unsent_spec : forall unsent total outputs total' outputs',
  add_unsent unsent total outputs = Ok (total', outputs') ->
  total' = total + sum_amounts unsent /\
  exists outs, outputs' = outputs ++ outs /\ Forall2 is_output_of unsent outs.
Proof.
  induction unsent as [| r unsent IH]; intros total outputs total' outputs' H;
    simpl in H.
  - inversion H; subst. split; [simpl; lia |].
    exists []. split; [symmetry; apply app_nil_r | constructor].
  - destruct (int_div_float (amount r) COIN) as [a | x |] eqn:Ha;
      simpl in H; try discriminate.
    destruct (IH _ _ _ _ H) as [Ht [outs [Ho Hf]]].
    split; [simpl; lia |].
    exists ((address r, a) :: outs). split.
    + rewrite Ho, <- app_assoc. reflexivity.
    + constructor; [split; [reflexivity | exact Ha] | exact Hf].
Qed.

Lemma get_tx_size_result e outputs w :
  get_tx_size e outputs w =
  match create_transaction e (final_outputs e outputs)
          (satoshis e 0.00000001%float) with
  | Some (tid, size) =>
      (Ok size,
       set_wallet_txs (filter (fun t => negb (String.eqb t tid)) (wallet_txs w)) w)
  | None => (Raise (Exception "Failed to estimate tx size for wallet"), w)
  end.
Proof.
  unfold get_tx_size, try_except, bind, create_tx, final_outputs.
  destruct (create_transaction e _ _) as [[tid size] |]; reflexivity.
Qed.

Lemma get_tx_details_inv fuel e wid addr btc w this_tx_fee total_fee total outs w1 :
  _get_tx_details fuel e wid addr btc w
  = (Ok (this_tx_fee, total_fee, total, outs), w1) ->
  exists sat t tid size,
    int_of_float (btc * COIN) = Ok sat /\
    add_unsent (get_unsent wid (db w)) sat [(addr, btc)] = Ok (total, outs) /\
    wait_for_fee_estimates fuel e 0 = Ok t /\
    create_transaction e (final_outputs e outs) (satoshis e 0.00000001%float)
    = Some (tid, size) /\
    int_div_float (estimate_fee e size) COIN = Ok total_fee /\
    fee_share sat total total_fee = Ok this_tx_fee /\
    w1 = set_wallet_txs
           (filter (fun x => negb (String.eqb x tid)) (wallet_txs w)) w.
Proof.
  unfold _get_tx_details, bind, lift, gets, fee_share. intro H.
  destruct (int_of_float (btc * COIN)) as [sat | x |] eqn:E1; try discriminate.
  destruct (add_unsent (get_unsent wid (db w)) sat [(addr, btc)])
    as [[tot o] | x |] eqn:E2; try discriminate.
  destruct (wait_for_fee_estimates fuel e 0) as [t | x |] eqn:E3;
    try discriminate.
  destruct (match dict_get 2 (get_fee_estimates e t) with
            | Some v => obind (int_truediv v 1000) (fun x => Ok (x / COIN)%float)
            | None => Raise TypeError
            end) as [spb | x |]; try discriminate.
  rewrite get_tx_size_result in H.
  destruct (create_transaction e (final_outputs e o) (satoshis e 1e-08))
    as [[tid size] |] eqn:E4; try discriminate.
  destruct (int_div_float (estimate_fee e size) COIN) as [tf | x |] eqn:E5;
    try discriminate.
  destruct (int_truediv sat tot) as [pr | x |] eqn:E6; try discriminate.
  unfold ret in H. inversion H; subst.
  exists sat, t, tid, size.
  rewrite E6. simpl. repeat split; assumption || reflexivity.
Qed.

(** ** [send], from the decision on *)

Lemma get_unsent_insert addr sat wid now l :
  get_unsent wid (snd (insert_transaction addr sat wid now l))
  = get_unsent wid l ++ [fst (insert_transaction addr sat wid now l)].
Proof.
  unfold get_unsent, insert_transaction; simpl.
  rewrite filter_app. simpl.
  unfold is_unsent at 2. simpl. rewrite Z.eqb_refl. reflexivity.
Qed.

Lemma get_unsent_update share wid tid total_fee total l :
  get_unsent wid (marked_sent share wid tid total_fee total l) = [].
Proof.
  unfold get_unsent, marked_sent; simpl.
  induction (rows l) as [| r rs IH]; simpl; trivial.
  destruct (is_unsent wid r) eqn:E; simpl.
  - unfold is_unsent at 1. simpl. rewrite andb_false_r. exact IH.
  - rewrite E. exact IH.
Qed.

Lemma send_decided fuel e addr btc wid wp w w0 this_tx_fee total_fee total outs
    w1 thr fee_sat ratio sat :
  _init_cmd_manager fuel e (Some (wid, wp)) true w = (Ok tt, w0) ->
  _get_tx_details fuel e wid addr btc w0
  = (Ok (this_tx_fee, total_fee, total, outs), w1) ->
  int_truediv (config_batching_threshold e) 100 = Ok thr ->
  int_of_float (total_fee * COIN) = Ok fee_sat ->
  int_truediv fee_sat total = Ok ratio ->
  int_of_float (btc * COIN) = Ok sat ->
  send fuel e addr btc wid wp (config_api_password e) w =
  let obj := fst (insert_transaction addr sat wid (now_ms e) (db w1)) in
  let w2 := set_db (snd (insert_transaction addr sat wid (now_ms e) (db w1))) w1 in
  if PrimFloat.leb ratio thr then
    match create_transaction e (final_outputs e outs) (satoshis e total_fee) with
    | None => (Raise (Exception "Failed to create tx for wallet"), w2)
    | Some (tid, size) =>
        let tx := {| tx_txid := tid; tx_outputs := final_outputs e outs;
                     tx_fee := satoshis e total_fee;
                     tx_estimated_size := size |} in
        if broadcast_transaction e tx
        then
          match db_update_failure e with
          | None =>
              (Ok (this_tx_fee, sr_id obj),
               {| db := marked_sent (db_fee_share e) wid tid total_fee
                          total (db w2);
                  wallet_txs := tid :: wallet_txs w1;
                  mempool := tx :: mempool w1;
                  made_dirs := made_dirs w1 |})
          | Some x =>
              (Raise x,
               {| db := db w2;
                  wallet_txs :=
                    filter (fun t => negb (String.eqb t tid))
                      (tid :: wallet_txs w1);
                  mempool := tx :: mempool w1;
                  made_dirs := made_dirs w1 |})
          end
        else (Raise (Exception "Failed to broadcast wallet"),
              {| db := db w2;
                 wallet_txs :=
                   filter (fun t => negb (String.eqb t tid))
                     (filter (fun t => negb (String.eqb t tid))
                        (tid :: wallet_txs w1));
                 mempool := mempool w1;
                 made_dirs := made_dirs w1 |})
    end
  else (Ok (this_tx_fee, sr_id obj), w2).
Proof.
  intros Hinit Hdet Hthr Hfs Hratio Hsat.
  unfold send, bind. rewrite Hinit. rewrite String.eqb_refl. cbv beta iota.
  cbn [negb]. cbv beta iota. rewrite Hdet. unfold lift.
  rewrite Hthr, Hfs, Hratio, Hsat. cbv beta iota.
  unfold db_insert_transaction, insert_transaction. cbv beta iota zeta.
  destruct (PrimFloat.leb ratio thr); [| reflexivity].
  unfold create_tx, final_outputs. cbv beta iota.
  destruct (create_transaction e _ _) as [[tid size] |]; [| reflexivity].
  unfold ret, wallet_add_transaction, modify, try_except, async_broadcast, bind,
    db_update_transactions, update_transactions.
  cbv beta iota.
  destruct (broadcast_transaction e _); [| reflexivity].
  destruct (db_update_failure e); reflexivity.
Qed.

Lemma within_threshold_inv e total_fee total b :
  within_threshold e total_fee total = Ok b ->
  exists thr fee_sat ratio,
    int_truediv (config_batching_threshold e) 100 = Ok thr /\
    int_of_float (total_fee * COIN) = Ok fee_sat /\
    int_truediv fee_sat total = Ok ratio /\
    b = PrimFloat.leb ratio thr.
Proof.
  unfold within_threshold. intro H.
  destruct (int_truediv (config_batching_threshold e) 100) as [thr | x |];
    try discriminate.
  destruct (int_of_float (total_fee * COIN)) as [fee_sat | x |];
    try discriminate.
  simpl in H.
  destruct (int_truediv fee_sat total) as [ratio | x |] eqn:E; try discriminate.
  simpl in H. inversion H.
  exists thr, fee_sat, ratio. rewrite E. repeat split; reflexivity.
Qed.

(** What [send] does once the estimation phase has returned and the ratio
    has been compared with the threshold. *)
Lemma send_cases fuel e addr btc wid wp w w0 this_tx_fee total_fee total outs w1 b :
  _init_cmd_manager fuel e (Some (wid, wp)) true w = (Ok tt, w0) ->
  _get_tx_details fuel e wid addr btc w0
  = (Ok (this_tx_fee, total_fee, total, outs), w1) ->
  within_threshold e total_fee total = Ok b ->
  exists sat,
    int_of_float (btc * COIN) = Ok sat /\
    db w1 = db w /\ mempool w1 = mempool w /\
    send fuel e addr btc wid wp (config_api_password e) w =
    let obj := new_request e addr sat wid (db w) in
    let l := {| rows := rows (db w) ++ [obj];
                next_sr_id := next_sr_id (db w) + 1 |} in
    if b then
      match create_transaction e (final_outputs e outs) (satoshis e total_fee) with
      | None => (Raise (Exception "Failed to create tx for wallet"), set_db l w1)
      | Some (tid, size) =>
          if broadcast_transaction e (batch_tx e outs total_fee tid size)
          then
            match db_update_failure e with
            | None =>
                (Ok (this_tx_fee, next_sr_id (db w)),
                 {| db := marked_sent (db_fee_share e) wid tid total_fee
                            total l;
                    wallet_txs := tid :: wallet_txs w1;
                    mempool := batch_tx e outs total_fee tid size :: mempool w;
                    made_dirs := made_dirs w1 |})
            | Some x =>
                (Raise x,
                 {| db := l;
                    wallet_txs :=
                      filter (fun t => negb (String.eqb t tid))
                        (tid :: wallet_txs w1);
                    mempool := batch_tx e outs total_fee tid size :: mempool w;
                    made_dirs := made_dirs w1 |})
            end
          else (Raise (Exception "Failed to broadcast wallet"),
                {| db := l;
                   wallet_txs :=
                     filter (fun t => negb (String.eqb t tid))
                       (filter (fun t => negb (String.eqb t tid))
                          (tid :: wallet_txs w1));
                   mempool := mempool w;
                   made_dirs := made_dirs w1 |})
      end
    else (Ok (this_tx_fee, next_sr_id (db w)), set_db l w1).
Proof.
  intros Hinit Hdet Hwt.
  destruct (within_threshold_inv _ _ _ _ Hwt)
    as [thr [fee_sat [ratio [Hthr [Hfs [Hratio Hb]]]]]].
  destruct (get_tx_details_inv _ _ _ _ _ _ _ _ _ _ _ Hdet)
    as [sat [t [tid0 [size0 [Hsat _]]]]].
  pose proof (init_cmd_manager_same_store fuel e (Some (wid, wp)) true w) as Hs0.
  rewrite Hinit in Hs0. destruct Hs0 as [Hdb0 Hmp0]. simpl in Hdb0, Hmp0.
  pose proof (get_tx_details_same_store fuel e wid addr btc w0) as Hsame.
  rewrite Hdet in Hsame. destruct Hsame as [Hdb Hmp]. simpl in Hdb, Hmp.
  rewrite Hdb0 in Hdb. rewrite Hmp0 in Hmp.
  exists sat. repeat split; trivial.
  rewrite (send_decided _ _ _ _ _ _ _ _ _ _ _ _ _ _ _ _ _
             Hinit Hdet Hthr Hfs Hratio Hsat).
  subst b. unfold insert_transaction, new_request, batch_tx. cbn [fst snd].
  cbv zeta. rewrite Hdb, Hmp.
  destruct (PrimFloat.leb ratio thr); [| reflexivity].
  destruct (create_transaction e _ _) as [[tid size] |]; [| reflexivity].
  unfold set_db; cbn [db mempool]. rewrite ?Hdb, ?Hmp.
  destruct (broadcast_transaction e _); [| reflexivity].
  destruct (db_update_failure e); reflexivity.
Qed.

(** ** Rows only move from Queued to Sent *)

Lemma preserves_weaken (R1 R2 : world -> world -> Prop) {A} (m : M A) :
  (forall w w', R1 w w' -> R2 w w') -> preserves R1 m -> preserves R2 m.
Proof. intros H Hm w. apply H, Hm. Qed.

Lemma row_evolves_trans r1 r2 r3 :
  row_evolves r1 r2 -> row_evolves r2 r3 -> row_evolves r1 r3.
Proof.
  intros [-> | H12] [-> | H23].
  - left; reflexivity.
  - right; exact H23.
  - right; exact H12.
  - destruct H12 as [_ [Hs _]], H23 as [Hq _]. congruence.
Qed.

Lemma row_evolves_sent r r' :
  row_evolves r r' -> is_queued r = false -> r' = r.
Proof. intros [-> | [Hq _]] Hs; [reflexivity | congruence]. Qed.

Lemma store_evolves_refl w : store_evolves w w.
Proof. intros i r Hi. exists r. split; [exact Hi | left; reflexivity]. Qed.

Lemma store_evolves_trans a b c :
  store_evolves a b -> store_evolves b c -> store_evolves a c.
Proof.
  intros Hab Hbc i r Hi.
  destruct (Hab i r Hi) as [r1 [H1 He1]].
  destruct (Hbc i r1 H1) as [r2 [H2 He2]].
  exists r2. split; [exact H2 | eapply row_evolves_trans; eassumption].
Qed.

Lemma same_db_evolves w w' : db w' = db w -> store_evolves w w'.
Proof.
  intro Hdb. unfold store_evolves. rewrite Hdb. apply (store_evolves_refl w).
Qed.

Lemma same_store_evolves w w' : same_store w w' -> store_evolves w w'.
Proof. intros [Hdb _]. apply same_db_evolves, Hdb. Qed.

Lemma insert_evolves e addr sat wid :
  preserves store_evolves (db_insert_transaction e addr sat wid).
Proof.
  intros w i r Hi. unfold db_insert_transaction, insert_transaction. simpl.
  exists r. split; [| left; reflexivity].
  rewrite nth_error_app1; [exact Hi |].
  apply nth_error_Some. congruence.
Qed.

Lemma update_evolves e wid tid total_fee total :
  preserves store_evolves (db_update_transactions e wid tid total_fee total).
Proof.
  intros w i r Hi. unfold db_update_transactions, update_transactions.
  destruct (db_update_failure e); simpl;
    [exists r; split; [exact Hi | left; reflexivity] |].
  rewrite nth_error_map, Hi. simpl.
  eexists. split; [reflexivity |].
  destruct (is_unsent wid r) eqn:E; [| left; reflexivity].
  right. unfold is_unsent in E. apply andb_prop in E. destruct E as [_ Hq].
  repeat split; trivial.
Qed.

Lemma async_broadcast_evolves e tx :
  preserves store_evolves (async_broadcast e tx).
Proof.
  unfold async_broadcast, wallet_remove_transaction.
  preserves_with store_evolves_refl store_evolves_trans
    ltac:(apply same_db_evolves; reflexivity).
Qed.

Lemma send_evolves fuel e addr btc wid wp ap :
  preserves store_evolves (send fuel e addr btc wid wp ap).
Proof.
  unfold send, wallet_add_transaction, wallet_remove_transaction.
  preserves_with store_evolves_refl store_evolves_trans
    ltac:(first
      [ apply insert_evolves
      | apply update_evolves
      | apply async_broadcast_evolves
      | apply (preserves_weaken same_store _ _ same_store_evolves);
        first [ apply init_cmd_manager_same_store
              | apply get_tx_details_same_store
              | apply create_tx_same_store ]
      | apply same_db_evolves; reflexivity ]).
Qed.

Lemma get_send_history_same_store fuel e limit :
  preserves same_store (get_send_history fuel e limit).
Proof.
  unfold get_send_history.
  preserves_with same_store_refl same_store_trans
    ltac:(first [apply init_cmd_manager_same_store]).
Qed.

Lemma get_tx_same_store e id : preserves same_store (APICmdUtil.get_tx e id).
Proof.
  unfold APICmdUtil.get_tx.
  preserves_with same_store_refl same_store_trans idtac.
Qed.

Lemma run_evolves fuel e c w : store_evolves w (run fuel e c w).
Proof.
  destruct c as [addr btc wid wp ap | addr btc wid wp ap | id | limit];
    unfold run.
  - exact (same_store_evolves _ _ (presend_same_store fuel e addr btc wid wp ap w)).
  - exact (send_evolves fuel e addr btc wid wp ap w).
  - exact (same_store_evolves _ _ (get_tx_same_store e id w)).
  - exact (same_store_evolves _ _ (get_send_history_same_store fuel e limit w)).
Qed.

Lemma reachable_evolves w w' : reachable w w' -> store_evolves w w'.
Proof.
  induction 1 as [w | fuel e c w w' _ IH].
  - apply store_evolves_refl.
  - eapply store_evolves_trans; [apply run_evolves | exact IH].
Qed.

Lemma sent_label_not_queued r : status_of r = "sent"%string -> is_queued r = false.
Proof.
  unfold status_of, truthy_txid, is_queued.
  destruct (txid r) as [s |]; [reflexivity | discriminate].
Qed.

Lemma status_labels r :
  status_of r = "queued"%string \/ status_of r = "sent"%string.
Proof. unfold status_of. destruct (truthy_txid r); [right | left]; reflexivity. Qed.

(** ** Lists of outputs, of rows and of wallet transactions *)

Lemma not_in_removed tid l :
  ~ In tid (filter (fun t => negb (String.eqb t tid)) l).
Proof.
  intro H. apply filter_In in H. destruct H as [_ H].
  rewrite String.eqb_refl in H. discriminate.
Qed.

Lemma Forall2_output_of unsent qs a :
  Forall2 is_output_of unsent qs -> In a unsent ->
  exists x, int_div_float (amount a) COIN = Ok x /\ In (address a, x) qs.
Proof.
  induction 1 as [| r o rs os Hro Hf IH]; intros Hin; [contradiction |].
  destruct Hin as [-> | Hin].
  - destruct o as [ad x]. destruct Hro as [Had Hx]. simpl in *. subst ad.
    exists x. split; [exact Hx | left; reflexivity].
  - destruct (IH Hin) as [x [Hx Hi]]. exists x. split; [exact Hx | right; exact Hi].
Qed.

Lemma amount_after_update (share : Z -> Z -> float -> float) wid tid
    (total_fee : float) (total : Z) r :
  amount (if is_unsent wid r
          then mark_sent tid (share (amount r) total total_fee) r
          else r) = amount r.
Proof. destruct (is_unsent wid r); reflexivity. Qed.

(** * The claims *)

(** C1, as stated, fails: the fee shares are binary64 products and nothing
    makes them add up. Here the new request (3000000 sat) joins two Queued
    ones (1000000 and 2000000 sat) in a batch whose ratio is within the
    threshold; the total fee is 22000 sat, and the three shares computed as
    lines 267-268 compute them neither add up to the total fee, as floats
    or as the numbers they denote, nor are whole satoshis: truncated, they
    are 11000, 3666 and 7333. *)
Lemma fee_shares_do_not_add_up_to_total_fee :
  fst (_get_tx_details 5 demo_env 7 "addr3" 0.03
         (world_of [queued_row 1 7 "addr1" 1000000;
                    queued_row 2 7 "addr2" 2000000]))
  = Ok (0.00011%float, 0.00022%float, 6000000,
        [("addr3"%string, 0.03%float); ("addr1"%string, 0.01%float);
         ("addr2"%string, 0.02%float)]) /\
  within_threshold demo_env 0.00022 6000000 = Ok true /\
  map (fun a => fee_share a 6000000 0.00022) [3000000; 1000000; 2000000]
  = [Ok 0.00011%float; Ok 3.6666666666666666e-05%float;
     Ok 7.333333333333333e-05%float] /\
  PrimFloat.eqb
    (float_sum [0.00011; 3.6666666666666666e-05; 7.333333333333333e-05]%float)
    0.00022 = false /\
  sums_exactly_to
    [0.00011; 3.6666666666666666e-05; 7.333333333333333e-05]%float
    0.00022 = false /\
  map (fun x => int_of_float (x * COIN))
    [0.00011; 3.6666666666666666e-05; 7.333333333333333e-05]%float
  = [Ok 11000; Ok 3666; Ok 7333].
Proof.
  repeat split; vm_compute; reflexivity.
Qed.

(** C1, amended: the fee attributed to the new request is proportional: it
    is [sat_amount / total_sat_amount * total_fee] computed in binary64,
    where [sat_amount] is the request's amount and [total_sat_amount] the
    exact integer sum of it and of the amounts Queued for the wallet. *)
Theorem this_tx_fee_is_proportional
    fuel e wid addr btc_amount w this_tx_fee total_fee total outs w1 :
  _get_tx_details fuel e wid addr btc_amount w
  = (Ok (this_tx_fee, total_fee, total, outs), w1) ->
  exists sat tx_proportion,
    int_of_float (btc_amount * COIN) = Ok sat /\
    total = sat + sum_amounts (get_unsent wid (db w)) /\
    int_truediv sat total = Ok tx_proportion /\
    this_tx_fee = (tx_proportion * total_fee)%float /\
    fee_share sat total total_fee = Ok this_tx_fee.
Proof.
  intro Hdet.
  destruct (get_tx_details_inv _ _ _ _ _ _ _ _ _ _ _ Hdet)
    as [sat [t [tid [size [Hsat [Hadd [_ [_ [_ [Hshare _]]]]]]]]]].
  destruct (add_unsent_spec _ _ _ _ _ Hadd) as [Htot _].
  unfold fee_share in Hshare.
  destruct (int_truediv sat total) as [p | x |] eqn:Ep; try discriminate.
  simpl in Hshare. inversion Hshare; subst.
  exists sat, p. unfold fee_share. rewrite Ep. repeat split; trivial.
Qed.

Lemma this_tx_fee_witness :
  _get_tx_details 5 demo_env 7 "addr2" 0.004
    (world_of [queued_row 1 7 "addr1" 100000])
  = (Ok (0.00011999999999999999%float, 0.00015%float, 500000,
         [("addr2"%string, 0.004%float); ("addr1"%string, 0.001%float)]),
     world_of [queued_row 1 7 "addr1" 100000]) /\
  fee_share 400000 500000 0.00015 = Ok 0.00011999999999999999%float.
Proof.
  assert (H : _get_tx_details 5 demo_env 7 "addr2" 0.004
                (world_of [queued_row 1 7 "addr1" 100000])
              = (Ok (0.00011999999999999999%float, 0.00015%float, 500000,
                     [("addr2"%string, 0.004%float);
                      ("addr1"%string, 0.001%float)]),
                 world_of [queued_row 1 7 "addr1" 100000]))
    by (vm_compute; reflexivity).
  split; [exact H |].
  destruct (this_tx_fee_is_proportional _ _ _ _ _ _ _ _ _ _ _ H)
    as [sat [p [Hsat [Htot [_ [_ Hshare]]]]]].
  assert (Hs : sat = 400000).
  { vm_compute in Hsat. inversion Hsat. reflexivity. }
  rewrite Hs in Hshare. exact Hshare.
Defined.

(** C2, as stated, fails, on both sides of its "exactly when". [send] has
    no cap on the size of a batch: a new request that makes a batch of three
    whose fee ratio is above the threshold is left Queued with the other
    two, where the specification's decision with a cap of three (or less)
    is to broadcast. And the ratio [send] tests is not the fee ratio: the
    fee is truncated to whole satoshis after a round trip through binary64.
    A batch of two with a fee of 15000 sat over 299990 sat has a fee ratio
    above 5 percent, so that with any cap above two the specification's
    decision is to leave it Queued; [send] computes 14999 / 299990 and
    broadcasts. No cap makes the specification's decision that of [send]
    on both runs. *)
Lemma send_has_no_cap_and_truncates_the_fee :
  (within_threshold demo_env 0.00022 300000 = Ok false /\
   spec_ratio_within_threshold 22000 300000 5 = false /\
   spec_broadcast_now false 3 3 = true /\
   send 5 demo_env "addr3" 0.001 7 "hunter2" "secret"
     (world_of [queued_row 1 7 "addr1" 100000; queued_row 2 7 "addr2" 100000])
   = (Ok (7.333333333333333e-05%float, 3),
      {| db := {| rows := [queued_row 1 7 "addr1" 100000;
                           queued_row 2 7 "addr2" 100000;
                           new_request demo_env "addr3" 100000 7
                             {| rows := []; next_sr_id := 3 |}];
                  next_sr_id := 4 |};
         wallet_txs := [];
         mempool := [];
         made_dirs := [] |})) /\
  (fst (_get_tx_details 5 demo_env 7 "addr2" 0.001
          (world_of [queued_row 1 7 "addr1" 199990]))
   = Ok (5.0001666722224072e-05%float, 0.00015%float, 299990,
         [("addr2"%string, 0.001%float); ("addr1"%string, 0.0019999%float)]) /\
   estimate_fee demo_env 150 = 15000 /\
   int_div_float 15000 COIN = Ok 0.00015%float /\
   spec_ratio_within_threshold 15000 299990 5 = false /\
   spec_broadcast_now false 2 3 = false /\
   int_of_float (0.00015 * COIN) = Ok 14999 /\
   within_threshold demo_env 0.00015 299990 = Ok true /\
   map tx_outputs
     (mempool (snd (send 5 demo_env "addr2" 0.001 7 "hunter2" "secret"
                      (world_of [queued_row 1 7 "addr1" 199990]))))
   = [[("addr2"%string, 100000); ("addr1"%string, 199990)]]) /\
  ~ exists max_batch,
      spec_broadcast_now (spec_ratio_within_threshold 22000 300000 5) 3 max_batch
      = false /\
      spec_broadcast_now (spec_ratio_within_threshold 15000 299990 5) 2 max_batch
      = true.
Proof.
  split; [| split].
  - repeat split; vm_compute; reflexivity.
  - repeat split; vm_compute; reflexivity.
  - intros [m [H1 H2]]. unfold spec_broadcast_now in H1, H2.
    change (spec_ratio_within_threshold 22000 300000 5) with false in H1.
    change (spec_ratio_within_threshold 15000 299990 5) with false in H2.
    simpl orb in H1, H2.
    apply Nat.leb_gt in H1. apply Nat.leb_le in H2. lia.
Qed.

(** C2, amended: once the estimation phase has returned, [send] decides on
    the test of line 301 alone, whatever the size of the batch:
    [batching_threshold >= fee_to_amount_proportion], where the threshold
    is [int(config) / 100] and the proportion is
    [int(total_fee * 1e8) / total_sat_amount]. The candidate outputs are
    those of the new request and of every request Queued for the wallet,
    and the new request is recorded in the store in every case. When the
    test fails nothing is broadcast, the new request is left Queued, and
    the caller gets the dry-run fee share (what [presend] returns) and the
    new id. When it holds, the wallet is asked for one transaction for all
    the outputs: if the wallet does not build it, or the network does not
    accept it, [send] raises and nothing is broadcast; if the network
    accepts it, it is broadcast, and the caller gets the same pair, no
    request staying Queued, when the store takes the update, and the
    store's exception when it does not. Something is broadcast only when
    the test holds, the wallet builds and the network accepts. *)
Theorem send_broadcasts_iff_within_threshold
    fuel e addr btc_amount wid wp w this_tx_fee total_fee total outs w1 b :
  _init_cmd_manager fuel e (Some (wid, wp)) true w = (Ok tt, w) ->
  _get_tx_details fuel e wid addr btc_amount w
  = (Ok (this_tx_fee, total_fee, total, outs), w1) ->
  within_threshold e total_fee total = Ok b ->
  (exists qs, outs = (addr, btc_amount) :: qs /\
              Forall2 is_output_of (get_unsent wid (db w)) qs) /\
  fst (presend fuel e addr btc_amount wid wp (config_api_password e) w)
  = Ok this_tx_fee /\
  (exists sat new,
     int_of_float (btc_amount * COIN) = Ok sat /\
     nth_error (rows (db (snd (send fuel e addr btc_amount wid wp
                                 (config_api_password e) w))))
               (List.length (rows (db w))) = Some new /\
     sr_id new = next_sr_id (db w) /\ wallet_id new = wid /\
     address new = addr /\ amount new = sat) /\
  (b = false ->
     fst (send fuel e addr btc_amount wid wp (config_api_password e) w)
     = Ok (this_tx_fee, next_sr_id (db w)) /\
     mempool (snd (send fuel e addr btc_amount wid wp (config_api_password e) w))
     = mempool w /\
     exists sat,
       int_of_float (btc_amount * COIN) = Ok sat /\
       rows (db (snd (send fuel e addr btc_amount wid wp
                        (config_api_password e) w)))
       = rows (db w) ++ [new_request e addr sat wid (db w)]) /\
  (b = true ->
     (create_transaction e (final_outputs e outs) (satoshis e total_fee) = None ->
        fst (send fuel e addr btc_amount wid wp (config_api_password e) w)
        = Raise (Exception "Failed to create tx for wallet") /\
        mempool (snd (send fuel e addr btc_amount wid wp
                        (config_api_password e) w))
        = mempool w) /\
     (forall tid size,
        create_transaction e (final_outputs e outs) (satoshis e total_fee)
        = Some (tid, size) ->
        (broadcast_transaction e (batch_tx e outs total_fee tid size) = false ->
           fst (send fuel e addr btc_amount wid wp (config_api_password e) w)
           = Raise (Exception "Failed to broadcast wallet") /\
           mempool (snd (send fuel e addr btc_amount wid wp
                           (config_api_password e) w))
           = mempool w) /\
        (broadcast_transaction e (batch_tx e outs total_fee tid size) = true ->
           mempool (snd (send fuel e addr btc_amount wid wp
                           (config_api_password e) w))
           = batch_tx e outs total_fee tid size :: mempool w /\
           (db_update_failure e = None ->
              fst (send fuel e addr btc_amount wid wp (config_api_password e) w)
              = Ok (this_tx_fee, next_sr_id (db w)) /\
              get_unsent wid (db (snd (send fuel e addr btc_amount wid wp
                                         (config_api_password e) w))) = []) /\
           (forall x, db_update_failure e = Some x ->
              fst (send fuel e addr btc_amount wid wp (config_api_password e) w)
              = Raise x)))) /\
  (mempool (snd (send fuel e addr btc_amount wid wp (config_api_password e) w))
   <> mempool w ->
   b = true /\
   exists tid size,
     create_transaction e (final_outputs e outs) (satoshis e total_fee)
     = Some (tid, size) /\
     broadcast_transaction e (batch_tx e outs total_fee tid size) = true).
Proof.
  intros Hinit Hdet Hwt.
  destruct (send_cases _ _ _ _ _ _ _ _ _ _ _ _ _ _ Hinit Hdet Hwt)
    as [sat [Hsat [Hdb [Hmp Hsend]]]].
  destruct (get_tx_details_inv _ _ _ _ _ _ _ _ _ _ _ Hdet)
    as [sat' [t [tid0 [size0 [_ [Hadd _]]]]]].
  destruct (add_unsent_spec _ _ _ _ _ Hadd) as [_ [qs [Ho Hf]]].
  rewrite Hsend. cbv zeta.
  split; [exists qs; split; trivial | split; [| split; [| split; [| split]]]].
  - unfold presend, bind. rewrite Hinit, String.eqb_refl.
    cbn [negb]. cbv beta iota. rewrite Hdet. reflexivity.
  - exists sat.
    destruct b;
      [destruct (create_transaction e _ _) as [[tid size] |];
       [destruct (broadcast_transaction e _);
        [destruct (db_update_failure e) |] |] |];
      cbn [snd db rows set_db marked_sent];
      rewrite ?nth_error_map, nth_error_app2, Nat.sub_diag by lia;
      cbn [nth_error option_map];
      eexists; (split; [exact Hsat | split; [reflexivity |]]);
      unfold new_request, is_unsent, is_queued; cbn;
      rewrite ?Z.eqb_refl; cbn; repeat split; reflexivity.
  - intros ->. simpl. repeat split; trivial.
    exists sat. split; trivial.
  - intros ->. split.
    + intros Hc. rewrite Hc. simpl. split; [reflexivity | exact Hmp].
    + intros tid size Hc. rewrite Hc. split.
      * intros Hb. rewrite Hb. simpl. split; reflexivity.
      * intros Hb. rewrite Hb. split; [| split].
        -- destruct (db_update_failure e); reflexivity.
        -- intros Hu. rewrite Hu. simpl. split; [reflexivity |].
           apply get_unsent_update.
        -- intros x Hu. rewrite Hu. reflexivity.
  - intro Hne.
    destruct b; [| simpl in Hne; rewrite Hmp in Hne; contradiction Hne; trivial].
    split; [reflexivity |].
    destruct (create_transaction e _ _) as [[tid size] |];
      [| simpl in Hne; rewrite Hmp in Hne; contradiction Hne; trivial].
    exists tid, size. split; [reflexivity |].
    destruct (broadcast_transaction e _); [reflexivity |].
    simpl in Hne. contradiction Hne; trivial.
Qed.

Lemma send_broadcasts_iff_within_threshold_witness :
  within_threshold demo_env 8e-05 100000 = Ok false /\
  fst (send 5 demo_env "addr1" 0.001 7 "hunter2" "secret" (world_of []))
  = Ok (8e-05%float, 1) /\
  mempool (snd (send 5 demo_env "addr1" 0.001 7 "hunter2" "secret" (world_of [])))
  = [].
Proof.
  assert (Hwt : within_threshold demo_env 8e-05 100000 = Ok false)
    by (vm_compute; reflexivity).
  split; [exact Hwt |].
  destruct (send_broadcasts_iff_within_threshold 5 demo_env "addr1" 0.001 7
              "hunter2" (world_of []) 8e-05 8e-05 100000
              [("addr1"%string, 0.001%float)] (world_of []) false)
    as [_ [_ [_ [Hq _]]]]; [reflexivity | vm_compute; reflexivity | exact Hwt |].
  destruct (Hq eq_refl) as [H1 [H2 _]].
  split; [exact H1 | exact H2].
Defined.

(** C3: over any sequence of calls of the API, with any answers of the
    collaborators, a row of the store keeps its place and either stays as
    it is or goes once from Queued to Sent, the request it records
    unchanged. A row that is Sent is never modified again: it does not go
    back to Queued and reports 'sent' ever after. No other status exists:
    [get_send_history] reports 'queued' or 'sent'. *)
Theorem status_moves_only_from_queued_to_sent w w' i r :
  reachable w w' ->
  nth_error (rows (db w)) i = Some r ->
  exists r',
    nth_error (rows (db w')) i = Some r' /\
    row_evolves r r' /\
    (is_queued r = false -> r' = r) /\
    (status_of r = "sent"%string -> r' = r) /\
    (status_of r' = "queued"%string \/ status_of r' = "sent"%string).
Proof.
  intros Hreach Hi.
  destruct (reachable_evolves w w' Hreach i r Hi) as [r' [Hi' He]].
  exists r'. repeat split; trivial.
  - apply row_evolves_sent; exact He.
  - intro Hs. apply (row_evolves_sent _ _ He), sent_label_not_queued, Hs.
  - apply status_labels.
Qed.

Lemma status_moves_witness :
  reachable (world_of [queued_row 1 7 "addr1" 100000])
    (run 5 demo_env (GetSendHistory 10)
       (run 5 demo_env (Send "addr2" 0.004 7 "hunter2" "secret")
          (world_of [queued_row 1 7 "addr1" 100000]))) /\
  exists r',
    nth_error
      (rows (db (run 5 demo_env (GetSendHistory 10)
                   (run 5 demo_env (Send "addr2" 0.004 7 "hunter2" "secret")
                      (world_of [queued_row 1 7 "addr1" 100000]))))) 0
    = Some r' /\
    row_evolves (queued_row 1 7 "addr1" 100000) r'.
Proof.
  assert (H : reachable (world_of [queued_row 1 7 "addr1" 100000])
                (run 5 demo_env (GetSendHistory 10)
                   (run 5 demo_env (Send "addr2" 0.004 7 "hunter2" "secret")
                      (world_of [queued_row 1 7 "addr1" 100000])))).
  { eapply reach_call, reach_call, reach_refl. }
  split; [exact H |].
  destruct (status_moves_only_from_queued_to_sent _ _ 0%nat
              (queued_row 1 7 "addr1" 100000) H eq_refl)
    as [r' [Hn [He _]]].
  exists r'. split; [exact Hn | exact He].
Defined.

(** C4: when the batch's transaction has been built and recorded at the
    wallet and the network does not accept it, [send] raises, the
    transaction is no longer among those the wallet records, nothing has
    reached the mempool, and no request is marked Sent: the store is the
    one before the call with the new request appended, Queued, and the
    wallet's Queued requests are those of the batch, eligible for the next
    cycle. *)
Theorem failed_broadcast_is_rolled_back
    fuel e addr btc_amount wid wp w this_tx_fee total_fee total outs w1 tid size :
  _init_cmd_manager fuel e (Some (wid, wp)) true w = (Ok tt, w) ->
  _get_tx_details fuel e wid addr btc_amount w
  = (Ok (this_tx_fee, total_fee, total, outs), w1) ->
  within_threshold e total_fee total = Ok true ->
  create_transaction e (final_outputs e outs) (satoshis e total_fee)
  = Some (tid, size) ->
  broadcast_transaction e (batch_tx e outs total_fee tid size) = false ->
  fst (send fuel e addr btc_amount wid wp (config_api_password e) w)
  = Raise (Exception "Failed to broadcast wallet") /\
  ~ In tid (wallet_txs (snd (send fuel e addr btc_amount wid wp
                               (config_api_password e) w))) /\
  mempool (snd (send fuel e addr btc_amount wid wp (config_api_password e) w))
  = mempool w /\
  exists sat,
    int_of_float (btc_amount * COIN) = Ok sat /\
    rows (db (snd (send fuel e addr btc_amount wid wp (config_api_password e) w)))
    = rows (db w) ++ [new_request e addr sat wid (db w)] /\
    get_unsent wid (db (snd (send fuel e addr btc_amount wid wp
                               (config_api_password e) w)))
    = get_unsent wid (db w) ++ [new_request e addr sat wid (db w)].
Proof.
  intros Hinit Hdet Hwt Hc Hb.
  destruct (send_cases _ _ _ _ _ _ _ _ _ _ _ _ _ _ Hinit Hdet Hwt)
    as [sat [Hsat [Hdb [Hmp Hsend]]]].
  rewrite Hsend. cbv zeta. rewrite Hc, Hb. simpl.
  split; [reflexivity | split; [| split; [reflexivity |]]].
  - rewrite String.eqb_refl. simpl. apply not_in_removed.
  - exists sat. repeat split; trivial.
    exact (get_unsent_insert addr sat wid (now_ms e) (db w)).
Qed.

Lemma failed_broadcast_witness :
  broadcast_transaction (with_broadcast (fun _ => false) demo_env)
    (batch_tx (with_broadcast (fun _ => false) demo_env)
       [("addr2"%string, 0.004%float); ("addr1"%string, 0.001%float)]
       0.00015 "tx2" 150) = false /\
  fst (send 5 (with_broadcast (fun _ => false) demo_env) "addr2" 0.004 7
         "hunter2" "secret" (world_of [queued_row 1 7 "addr1" 100000]))
  = Raise (Exception "Failed to broadcast wallet") /\
  ~ In "tx2"%string
      (wallet_txs (snd (send 5 (with_broadcast (fun _ => false) demo_env)
                          "addr2" 0.004 7 "hunter2" "secret"
                          (world_of [queued_row 1 7 "addr1" 100000])))).
Proof.
  split; [reflexivity |].
  destruct (failed_broadcast_is_rolled_back 5
              (with_broadcast (fun _ => false) demo_env) "addr2" 0.004 7
              "hunter2" (world_of [queued_row 1 7 "addr1" 100000])
              0.00011999999999999999 0.00015 500000
              [("addr2"%string, 0.004%float); ("addr1"%string, 0.001%float)]
              (world_of [queued_row 1 7 "addr1" 100000]) "tx2" 150)
    as [H1 [H2 _]];
    [reflexivity | vm_compute; reflexivity | vm_compute; reflexivity
    | vm_compute; reflexivity | reflexivity |].
  split; [exact H1 | exact H2].
Defined.

(** C5, as stated, fails: with a FeeOracle that never has data, no number
    of polls makes [presend] end, with FeeUnavailable or otherwise: the call
    is still blocked after any number of polls. *)
Lemma fee_wait_has_no_timeout :
  ~ exists fuel,
      fst (presend fuel (with_fee_estimates (fun _ => []) demo_env)
             "addr1" 0.001 7 "hunter2" "secret" (world_of []))
      <> Blocked.
Proof.
  intros [fuel H]. apply H. clear H.
  destruct fuel as [| [| fuel]]; [reflexivity | reflexivity |].
  unfold presend, bind.
  rewrite (init_cmd_manager_ok _ _ 7 "hunter2" 1);
    [| reflexivity | reflexivity | lia | reflexivity].
  change (negb (String.eqb "secret"
                  (config_api_password (with_fee_estimates (fun _ => []) demo_env))))
    with false.
  cbv beta iota.
  rewrite (get_tx_details_blocked _ _ 7 "addr1" 0.001 (world_of [])
             100000 100000 [("addr1"%string, 0.001%float)]);
    [reflexivity | vm_compute; reflexivity | vm_compute; reflexivity
    | intros; reflexivity].
Qed.

(** C5, amended: the fee-estimate retrieval polls without a timeout. It
    returns at the first poll at which the FeeOracle has data, whichever
    poll that is; while the oracle has no data it neither returns nor
    raises, and the cycle does not return. The estimation phase leaves the
    store as it was, and [send] writes the store only after it: a request
    submitted earlier stays Queued, unmodified. *)
Theorem fee_wait_polls_until_data fuel e addr btc_amount wid wp ap w :
  (forall k, (k < fuel)%nat ->
     (forall j, (j < k)%nat -> get_fee_estimates e j = []) ->
     get_fee_estimates e k <> [] ->
     wait_for_fee_estimates fuel e 0 = Ok k) /\
  ((forall j, (j < fuel)%nat -> get_fee_estimates e j = []) ->
     wait_for_fee_estimates fuel e 0 = Blocked /\
     returned (fst (_get_tx_details fuel e wid addr btc_amount w)) = false /\
     db (snd (send fuel e addr btc_amount wid wp ap w)) = db w) /\
  raised (wait_for_fee_estimates fuel e 0) = false /\
  db (snd (_get_tx_details fuel e wid addr btc_amount w)) = db w.
Proof.
  split; [| split; [| split]].
  - intros k Hk Hj Hr.
    apply wait_for_fee_estimates_first; trivial; try lia.
    intros j Hlt; apply Hj; lia.
  - intro Hno. split; [| split].
    + apply wait_for_fee_estimates_blocked. intros j Hj; apply Hno; lia.
    + apply get_tx_details_not_returned; exact Hno.
    + apply send_store_before_details.
      apply get_tx_details_not_returned; exact Hno.
  - apply wait_for_fee_estimates_never_raises.
  - apply (get_tx_details_same_store fuel e wid addr btc_amount w).
Qed.

Lemma fee_wait_polls_until_data_witness :
  wait_for_fee_estimates 5 demo_env 0 = Ok 2%nat /\
  wait_for_fee_estimates 2 demo_env 0 = Blocked /\
  db (snd (send 2 demo_env "addr1" 0.001 7 "hunter2" "secret"
             (world_of [queued_row 1 7 "addr0" 400000])))
  = db (world_of [queued_row 1 7 "addr0" 400000]).
Proof.
  assert (Hno : forall j, (j < 2)%nat -> get_fee_estimates demo_env j = []).
  { intros [| [| j]] Hj; [reflexivity | reflexivity | lia]. }
  destruct (fee_wait_polls_until_data 5 demo_env "addr1" 0.001 7 "hunter2"
              "secret" (world_of [])) as [Hfirst _].
  destruct (fee_wait_polls_until_data 2 demo_env "addr1" 0.001 7 "hunter2"
              "secret" (world_of [queued_row 1 7 "addr0" 400000]))
    as [_ [Hblocked _]].
  split; [| split].
  - apply Hfirst; [lia | exact Hno | simpl; discriminate].
  - apply (Hblocked Hno).
  - apply (Hblocked Hno).
Defined.

(** C6, as stated, fails: two requests whose combined fee ratio is within
    the threshold are not batched when the first, alone, is already within
    it. Here 0.01 BTC and then 0.02 BTC are submitted for wallet 7: one
    transaction for both would cost 15000 sat over 3000000 sat, within
    the 5 percent; but the first request alone costs 8000 sat over
    1000000 sat, so it is broadcast when it is submitted, and the second
    finds nothing Queued and is broadcast alone as well. The mempool holds
    two transactions of one output each, and the two requests hold two
    different txids. *)
Lemma requests_within_threshold_alone_are_sent_apart :
  fst (_get_tx_details 5 demo_env_txids 7 "addrB" 0.02
         (world_of [queued_row 1 7 "addrA" 1000000]))
  = Ok (9.9999999999999991e-05%float, 0.00015%float, 3000000,
        [("addrB"%string, 0.02%float); ("addrA"%string, 0.01%float)]) /\
  within_threshold demo_env_txids 0.00015 3000000 = Ok true /\
  spec_ratio_within_threshold 15000 3000000 5 = true /\
  map tx_outputs
    (mempool
       (run 5 demo_env_txids (Send "addrB" 0.02 7 "hunter2" "secret")
          (run 5 demo_env_txids (Send "addrA" 0.01 7 "hunter2" "secret")
             (world_of []))))
  = [[("addrB"%string, 2000000)]; [("addrA"%string, 1000000)]] /\
  map (fun r => (address r, txid r))
    (rows (db
       (run 5 demo_env_txids (Send "addrB" 0.02 7 "hunter2" "secret")
          (run 5 demo_env_txids (Send "addrA" 0.01 7 "hunter2" "secret")
             (world_of [])))))
  = [("addrA"%string, Some "tx_addrA"%string);
     ("addrB"%string, Some "tx_addrB"%string)].
Proof.
  repeat split; vm_compute; reflexivity.
Qed.

(** C6, amended: a request that is Queued for the wallet when a second one
    is submitted for the same wallet is sent with it. When the ratio of the
    batch [send] forms (the new request and every request Queued for the
    wallet) passes the test of line 301, the wallet builds the transaction,
    the network accepts it and the store takes the update, then one
    transaction has been broadcast, the outputs the wallet was asked to pay
    hold one for each of the two requests, and both rows hold that
    transaction's txid. *)
Theorem queued_request_is_sent_with_the_new_one
    fuel e addr btc_amount wid wp w this_tx_fee total_fee total outs w1 tid size
    i a :
  _init_cmd_manager fuel e (Some (wid, wp)) true w = (Ok tt, w) ->
  _get_tx_details fuel e wid addr btc_amount w
  = (Ok (this_tx_fee, total_fee, total, outs), w1) ->
  within_threshold e total_fee total = Ok true ->
  create_transaction e (final_outputs e outs) (satoshis e total_fee)
  = Some (tid, size) ->
  broadcast_transaction e (batch_tx e outs total_fee tid size) = true ->
  db_update_failure e = None ->
  nth_error (rows (db w)) i = Some a ->
  is_unsent wid a = true ->
  exists tx x a' b',
    mempool (snd (send fuel e addr btc_amount wid wp (config_api_password e) w))
    = tx :: mempool w /\
    tx = batch_tx e outs total_fee tid size /\
    tx_txid tx = tid /\
    tx_outputs tx = final_outputs e outs /\
    In (addr, satoshis e btc_amount) (final_outputs e outs) /\
    int_div_float (amount a) COIN = Ok x /\
    In (address a, satoshis e x) (final_outputs e outs) /\
    nth_error (rows (db (snd (send fuel e addr btc_amount wid wp
                                (config_api_password e) w)))) i = Some a' /\
    sr_id a' = sr_id a /\ txid a' = Some tid /\
    nth_error (rows (db (snd (send fuel e addr btc_amount wid wp
                                (config_api_password e) w))))
              (List.length (rows (db w))) = Some b' /\
    fst (send fuel e addr btc_amount wid wp (config_api_password e) w)
    = Ok (this_tx_fee, sr_id b') /\
    address b' = addr /\ txid b' = Some tid.
Proof.
  intros Hinit Hdet Hwt Hc Hb Hcommit Hi Hu.
  destruct (send_cases _ _ _ _ _ _ _ _ _ _ _ _ _ _ Hinit Hdet Hwt)
    as [sat [Hsat [Hdb [Hmp Hsend]]]].
  rewrite Hsend. cbv zeta. rewrite Hc, Hb, Hcommit. simpl.
  destruct (get_tx_details_inv _ _ _ _ _ _ _ _ _ _ _ Hdet)
    as [sat' [t [tid0 [size0 [_ [Hadd _]]]]]].
  destruct (add_unsent_spec _ _ _ _ _ Hadd) as [_ [qs [Ho Hf]]].
  assert (Hin : In a (get_unsent wid (db w))).
  { apply filter_In. split; [eapply nth_error_In; exact Hi | exact Hu]. }
  destruct (Forall2_output_of _ _ _ Hf Hin) as [x [Hx Hxin]].
  exists (batch_tx e outs total_fee tid size), x.
  exists (mark_sent tid (db_fee_share e (amount a) total total_fee) a).
  exists (mark_sent tid (db_fee_share e sat total total_fee)
            (new_request e addr sat wid (db w))).
  assert (Hlt : (i < List.length (rows (db w)))%nat)
    by (apply nth_error_Some; congruence).
  repeat split; trivial.
  - unfold final_outputs. rewrite Ho. simpl. left; reflexivity.
  - unfold final_outputs. rewrite Ho. simpl. right.
    apply (in_map (fun o => (fst o, satoshis e (snd o))) qs (address a, x) Hxin).
  - rewrite nth_error_map, nth_error_app1 by exact Hlt.
    rewrite Hi. simpl. rewrite Hu. reflexivity.
  - rewrite nth_error_map, nth_error_app2 by lia.
    rewrite Nat.sub_diag. simpl.
    unfold is_unsent. simpl. rewrite Z.eqb_refl. reflexivity.
Qed.

Lemma queued_request_is_sent_witness :
  within_threshold demo_env 0.00015 500000 = Ok true /\
  is_unsent 7 (queued_row 1 7 "addr1" 100000) = true /\
  mempool (snd (send 5 demo_env "addr2" 0.004 7 "hunter2" "secret"
                  (world_of [queued_row 1 7 "addr1" 100000])))
  = [batch_tx demo_env
       [("addr2"%string, 0.004%float); ("addr1"%string, 0.001%float)]
       0.00015 "tx2" 150] /\
  map txid (rows (db (snd (send 5 demo_env "addr2" 0.004 7 "hunter2" "secret"
                             (world_of [queued_row 1 7 "addr1" 100000])))))
  = [Some "tx2"%string; Some "tx2"%string].
Proof.
  assert (Hwt : within_threshold demo_env 0.00015 500000 = Ok true)
    by (vm_compute; reflexivity).
  split; [exact Hwt | split; [reflexivity |]].
  destruct (queued_request_is_sent_with_the_new_one 5 demo_env "addr2" 0.004 7
              "hunter2" (world_of [queued_row 1 7 "addr1" 100000])
              0.00011999999999999999 0.00015 500000
              [("addr2"%string, 0.004%float); ("addr1"%string, 0.001%float)]
              (world_of [queued_row 1 7 "addr1" 100000]) "tx2" 150
              0%nat (queued_row 1 7 "addr1" 100000))
    as [tx [x [a' [b' [Hm [Ht _]]]]]];
    [reflexivity | vm_compute; reflexivity | exact Hwt
    | vm_compute; reflexivity | reflexivity | reflexivity | reflexivity
    | reflexivity |].
  split; vm_compute; reflexivity.
Defined.

(** C7, as stated, fails: amounts and fees go through binary64. A request
    of 0.29 BTC (29000000 satoshis) is recorded as 28999999 satoshis; a
    request of a tenth of a satoshi is recorded with amount 0; the total
    fee and the fee share are BTC floats, and the share returned for
    1000000 sat out of 6000000 under a fee of 22000 sat lies strictly
    between 3666 and 3667 satoshis. *)
Lemma amounts_and_fees_go_through_binary64 :
  int_of_float (0.29 * COIN) = Ok 28999999 /\
  map amount
    (rows (db (snd (send 5 demo_env "addr1" 0.29 7 "hunter2" "secret"
                      (world_of [])))))
  = [28999999] /\
  map amount
    (rows (db (snd (send 5 demo_env "addr2" 1e-09 7 "hunter2" "secret"
                      (world_of [queued_row 1 7 "addr1" 100000])))))
  = [100000; 0] /\
  fst (presend 5 demo_env "addr1" 0.01 7 "hunter2" "secret"
         (world_of [queued_row 1 7 "addr2" 2000000;
                    queued_row 2 7 "addr3" 3000000]))
  = Ok 3.6666666666666666e-05%float /\
  strictly_between_satoshis 3.6666666666666666e-05 3666 = true.
Proof.
  repeat split; vm_compute; reflexivity.
Qed.

(** C7, amended: the amounts the store holds and the total of a batch are
    integers. [send] records the new request with the integer
    [int(btc_amount * 1e8)], leaves the amount of every other row as it
    was, and [total_sat_amount] is the exact integer sum of the new amount
    and of the amounts Queued for the wallet. The amount the caller gives
    and the total fee are binary64 numbers, the total fee being
    [estimate_fee(size) / 1e8]. *)
Theorem amounts_are_integers_fees_are_binary64
    fuel e addr btc_amount wid wp w this_tx_fee total_fee total outs w1 b :
  _init_cmd_manager fuel e (Some (wid, wp)) true w = (Ok tt, w) ->
  _get_tx_details fuel e wid addr btc_amount w
  = (Ok (this_tx_fee, total_fee, total, outs), w1) ->
  within_threshold e total_fee total = Ok b ->
  exists sat size new,
    int_of_float (btc_amount * COIN) = Ok sat /\
    total = sat + sum_amounts (get_unsent wid (db w)) /\
    nth_error (rows (db (snd (send fuel e addr btc_amount wid wp
                                (config_api_password e) w))))
              (List.length (rows (db w))) = Some new /\
    amount new = sat /\
    (forall i r, nth_error (rows (db w)) i = Some r ->
       exists r',
         nth_error (rows (db (snd (send fuel e addr btc_amount wid wp
                                     (config_api_password e) w)))) i = Some r' /\
         amount r' = amount r) /\
    int_div_float (estimate_fee e size) COIN = Ok total_fee.
Proof.
  intros Hinit Hdet Hwt.
  destruct (send_cases _ _ _ _ _ _ _ _ _ _ _ _ _ _ Hinit Hdet Hwt)
    as [sat [Hsat [Hdb [Hmp Hsend]]]].
  destruct (get_tx_details_inv _ _ _ _ _ _ _ _ _ _ _ Hdet)
    as [sat' [t [tid0 [size0 [Hsat' [Hadd [_ [_ [Hfee _]]]]]]]]].
  assert (sat' = sat) by congruence. subst sat'.
  destruct (add_unsent_spec _ _ _ _ _ Hadd) as [Htot _].
  assert (Hold : forall i r, nth_error (rows (db w)) i = Some r ->
            exists r',
              nth_error (rows (db (snd (send fuel e addr btc_amount wid wp
                                          (config_api_password e) w)))) i
              = Some r' /\ amount r' = amount r).
  { intros i r Hi.
    destruct (send_evolves fuel e addr btc_amount wid wp
                (config_api_password e) w i r Hi) as [r' [Hi' He]].
    exists r'. split; [exact Hi' |].
    destruct He as [-> | [_ [_ [_ [_ [_ [Ha _]]]]]]]; [reflexivity | exact Ha]. }
  assert (Hnew : exists new,
            nth_error (rows (db (snd (send fuel e addr btc_amount wid wp
                                        (config_api_password e) w))))
                      (List.length (rows (db w))) = Some new /\
            amount new = sat).
  { rewrite Hsend. cbv zeta.
    destruct b.
    - destruct (create_transaction e _ _) as [[tid size] |].
      + destruct (broadcast_transaction e _);
          [destruct (db_update_failure e) |]; simpl.
        * rewrite nth_error_app2, Nat.sub_diag by lia. simpl.
          eexists. split; reflexivity.
        * rewrite nth_error_map, nth_error_app2, Nat.sub_diag by lia. simpl.
          eexists. split; [reflexivity | apply amount_after_update].
        * rewrite nth_error_app2, Nat.sub_diag by lia. simpl.
          eexists. split; reflexivity.
      + simpl. rewrite nth_error_app2, Nat.sub_diag by lia. simpl.
        eexists. split; reflexivity.
    - simpl. rewrite nth_error_app2, Nat.sub_diag by lia. simpl.
      eexists. split; reflexivity. }
  destruct Hnew as [new [Hn Ha]].
  exists sat, size0, new. repeat split; trivial.
Qed.

Lemma amounts_are_integers_witness :
  within_threshold demo_env 0.00015 500000 = Ok true /\
  exists new,
    nth_error (rows (db (snd (send 5 demo_env "addr2" 0.004 7 "hunter2"
                                "secret"
                                (world_of [queued_row 1 7 "addr1" 100000]))))) 1
    = Some new /\
    amount new = 400000.
Proof.
  assert (Hwt : within_threshold demo_env 0.00015 500000 = Ok true)
    by (vm_compute; reflexivity).
  split; [exact Hwt |].
  destruct (amounts_are_integers_fees_are_binary64 5 demo_env "addr2" 0.004 7
              "hunter2" (world_of [queued_row 1 7 "addr1" 100000])
              0.00011999999999999999 0.00015 500000
              [("addr2"%string, 0.004%float); ("addr1"%string, 0.001%float)]
              (world_of [queued_row 1 7 "addr1" 100000]) true)
    as [sat [size [new [Hsat [_ [Hn [Ha _]]]]]]];
    [reflexivity | vm_compute; reflexivity | exact Hwt |].
  exists new. split; [exact Hn |].
  rewrite Ha. vm_compute in Hsat. inversion Hsat. reflexivity.
Defined.

(** C8: [presend] is deterministic. Two calls with the same address,
    amount, wallet and passwords, made against the same answers of the
    collaborators (FeeOracle, TxSizeEstimator) in two states that hold the
    same Queued requests for the wallet, produce the same result, hence the
    same fee value. *)
Theorem presend_is_deterministic fuel e addr btc_amount wid wp ap w1 w2 :
  get_unsent wid (db w1) = get_unsent wid (db w2) ->
  fst (presend fuel e addr btc_amount wid wp ap w1)
  = fst (presend fuel e addr btc_amount wid wp ap w2).
Proof.
  intro H.
  apply (presend_respects fuel e addr btc_amount wid wp ap w1 w2 H).
Qed.

(** Calling [presend] again on the state the first call left gives the same
    result. *)
Lemma presend_repeated fuel e addr btc_amount wid wp ap w :
  fst (presend fuel e addr btc_amount wid wp ap
         (snd (presend fuel e addr btc_amount wid wp ap w)))
  = fst (presend fuel e addr btc_amount wid wp ap w).
Proof.
  apply (presend_respects fuel e addr btc_amount wid wp ap).
  unfold same_unsent.
  destruct (presend_same_store fuel e addr btc_amount wid wp ap w) as [Hdb _].
  rewrite Hdb. reflexivity.
Qed.

Lemma presend_is_deterministic_witness :
  get_unsent 7 (db (world_of [queued_row 1 7 "addr0" 400000]))
  = get_unsent 7 (db {| db := {| rows := [queued_row 1 7 "addr0" 400000;
                                          queued_row 2 8 "addr9" 5000];
                                 next_sr_id := 3 |};
                        wallet_txs := ["tx1"%string]; mempool := [];
                        made_dirs := [] |}) /\
  fst (presend 5 demo_env "addr1" 0.001 7 "hunter2" "secret"
         (world_of [queued_row 1 7 "addr0" 400000]))
  = fst (presend 5 demo_env "addr1" 0.001 7 "hunter2" "secret"
           {| db := {| rows := [queued_row 1 7 "addr0" 400000;
                                queued_row 2 8 "addr9" 5000];
                       next_sr_id := 3 |};
              wallet_txs := ["tx1"%string]; mempool := [];
              made_dirs := [] |}).
Proof.
  split; [reflexivity |].
  apply (presend_is_deterministic 5 demo_env "addr1" 0.001 7 "hunter2" "secret").
  reflexivity.
Defined.

(** C9: [presend] never inserts, updates or deletes a row of the request
    store: the store after the call is the store before it, so the Queued
    requests of every wallet are the same before and after. *)
Theorem presend_leaves_store_unchanged fuel e addr btc_amount wid wp ap w :
  db (snd (presend fuel e addr btc_amount wid wp ap w)) = db w /\
  forall wid', get_unsent wid' (db (snd (presend fuel e addr btc_amount wid wp ap w)))
               = get_unsent wid' (db w).
Proof.
  destruct (presend_same_store fuel e addr btc_amount wid wp ap w) as [Hdb _].
  split; [exact Hdb | intro wid'; rewrite Hdb; reflexivity].
Qed.

(** C10, as stated, fails: a call with a wrong [api_password] need not
    raise. The password is compared after [_init_cmd_manager] has waited
    for the network, and that wait has no timeout: with a network that does
    not connect, [send] and [presend] with a wrong password raise nothing,
    however long they are given; they are still waiting. *)
Lemma wrong_api_password_need_not_raise :
  "guess"%string
  <> config_api_password (with_is_connected (fun _ => false) demo_env) /\
  (~ exists fuel,
       fst (send fuel (with_is_connected (fun _ => false) demo_env)
              "addr1" 0.001 7 "hunter2" "guess" (world_of []))
       <> Blocked) /\
  (~ exists fuel,
       fst (presend fuel (with_is_connected (fun _ => false) demo_env)
              "addr1" 0.001 7 "hunter2" "guess" (world_of []))
       <> Blocked).
Proof.
  assert (Hap : "guess"%string
                <> config_api_password
                     (with_is_connected (fun _ => false) demo_env))
    by (simpl; discriminate).
  split; [exact Hap | split].
  - intros [fuel H]. apply H. clear H.
    unfold send, bind.
    rewrite init_cmd_manager_result.
    change (load_wallet (with_is_connected (fun _ => false) demo_env) 7
              "hunter2" (world_of []))
      with (@Ok unit tt, world_of []).
    rewrite wait_for_connection_blocked by (intros; reflexivity).
    reflexivity.
  - intros [fuel H]. apply H. clear H.
    unfold presend, bind.
    rewrite init_cmd_manager_result.
    change (load_wallet (with_is_connected (fun _ => false) demo_env) 7
              "hunter2" (world_of []))
      with (@Ok unit tt, world_of []).
    rewrite wait_for_connection_blocked by (intros; reflexivity).
    reflexivity.
Qed.

(** C10, amended: a call of [send] or [presend] whose [api_password] is not
    the configured one returns no result and leaves the request store, the
    wallet's transactions and the mempool as they were: no row is inserted
    and the payment is not enqueued (with the wallet directory in place the
    whole state is as it was). It raises only once [_init_cmd_manager] is
    through: at once, with the exception of [load_wallet], when the wallet
    does not load; with 'Incorrect API password' as soon as the network is
    connected, when it does; and while the network is not connected the
    call is still waiting and raises nothing. *)
Theorem wrong_api_password_changes_nothing fuel e addr btc_amount wid wp ap w :
  ap <> config_api_password e ->
  (same_state w (snd (send fuel e addr btc_amount wid wp ap w)) /\
   (os_path_isdir e (config_wallet_dir e) = true ->
      snd (send fuel e addr btc_amount wid wp ap w) = w) /\
   returned (fst (send fuel e addr btc_amount wid wp ap w)) = false /\
   ((exists j, (j < fuel)%nat /\ is_connected e j = true) ->
      raised (fst (send fuel e addr btc_amount wid wp ap w)) = true) /\
   (fst (load_wallet e wid wp w) = Ok tt ->
    (exists j, (j < fuel)%nat /\ is_connected e j = true) ->
      fst (send fuel e addr btc_amount wid wp ap w)
      = Raise (Exception "Incorrect API password")) /\
   (fst (load_wallet e wid wp w) = Ok tt ->
    (forall j, (j < fuel)%nat -> is_connected e j = false) ->
      fst (send fuel e addr btc_amount wid wp ap w) = Blocked) /\
   (forall x, fst (load_wallet e wid wp w) = Raise x ->
      fst (send fuel e addr btc_amount wid wp ap w) = Raise x)) /\
  (same_state w (snd (presend fuel e addr btc_amount wid wp ap w)) /\
   (os_path_isdir e (config_wallet_dir e) = true ->
      snd (presend fuel e addr btc_amount wid wp ap w) = w) /\
   returned (fst (presend fuel e addr btc_amount wid wp ap w)) = false /\
   ((exists j, (j < fuel)%nat /\ is_connected e j = true) ->
      raised (fst (presend fuel e addr btc_amount wid wp ap w)) = true) /\
   (fst (load_wallet e wid wp w) = Ok tt ->
    (exists j, (j < fuel)%nat /\ is_connected e j = true) ->
      fst (presend fuel e addr btc_amount wid wp ap w)
      = Raise (Exception "Incorrect API password")) /\
   (fst (load_wallet e wid wp w) = Ok tt ->
    (forall j, (j < fuel)%nat -> is_connected e j = false) ->
      fst (presend fuel e addr btc_amount wid wp ap w) = Blocked) /\
   (forall x, fst (load_wallet e wid wp w) = Raise x ->
      fst (presend fuel e addr btc_amount wid wp ap w) = Raise x)).
Proof.
  intro Hap. split.
  - exact (rejected_call fuel e wid wp ap _ w Hap).
  - exact (rejected_call fuel e wid wp ap _ w Hap).
Qed.

Lemma wrong_api_password_witness :
  "guess"%string <> config_api_password demo_env /\
  snd (send 5 demo_env "addr1" 0.001 7 "hunter2" "guess"
         (world_of [queued_row 1 7 "addr0" 400000]))
  = world_of [queued_row 1 7 "addr0" 400000] /\
  fst (send 5 demo_env "addr1" 0.001 7 "hunter2" "guess"
         (world_of [queued_row 1 7 "addr0" 400000]))
  = Raise (Exception "Incorrect API password") /\
  fst (presend 1 demo_env "addr1" 0.001 7 "hunter2" "guess"
         (world_of [queued_row 1 7 "addr0" 400000]))
  = Blocked.
Proof.
  assert (H : "guess"%string <> config_api_password demo_env)
    by (simpl; discriminate).
  split; [exact H |].
  destruct (wrong_api_password_changes_nothing 5 demo_env "addr1" 0.001 7
              "hunter2" "guess" (world_of [queued_row 1 7 "addr0" 400000]) H)
    as [[_ [Hw [_ [_ [Hr _]]]]] _].
  destruct (wrong_api_password_changes_nothing 1 demo_env "addr1" 0.001 7
              "hunter2" "guess" (world_of [queued_row 1 7 "addr0" 400000]) H)
    as [_ [_ [_ [_ [_ [_ [Hb _]]]]]]].
  split; [apply Hw; reflexivity | split].
  - apply Hr; [reflexivity | exists 1%nat; split; [lia | reflexivity]].
  - apply Hb; [reflexivity |].
    intros [| j] Hj; [reflexivity | lia].
Defined.

(** * Further properties of the code *)

(** ** Waiting for the network, loading the wallet *)

(** X1: [wait_for_connection] returns exactly when the network is connected
    at one of the polls it can make, and it never raises: while the network
    is not connected it only keeps polling. *)
Theorem wait_for_connection_returns_iff fuel e t :
  (wait_for_connection fuel e t = Ok tt <->
   exists k, (t <= k < t + fuel)%nat /\ is_connected e k = true) /\
  raised (wait_for_connection fuel e t) = false.
Proof.
  split; [split |].
  - apply wait_for_connection_ok_inv.
  - intros [k [Hk Hc]]. apply (wait_for_connection_connects e k); trivial.
  - apply wait_for_connection_never_raises.
Qed.

(** X2: the wallet is loaded before the network is waited for and before
    the API password is looked at. For a wallet whose file does not exist,
    [send] and [presend] raise at once, whatever the API password and
    whether or not the network connects, and the store, the wallet's
    transactions and the mempool are as they were. With the wallet directory
    in place the exception is '<path> does not exist' and nothing has
    changed. Without it, [load_wallet] makes the directory on its way: when
    os.mkdir succeeds the exception is the same and the directory made is
    the one change; when os.mkdir fails the exception is its OSError. *)
Theorem missing_wallet_is_reported_first fuel e addr btc_amount wid wp ap w :
  wallet_storage e (wallet_file e wid) = None ->
  (os_path_isdir e (config_wallet_dir e) = true ->
     send fuel e addr btc_amount wid wp ap w
     = (Raise (Exception (String.append (wallet_file e wid) " does not exist")),
        w) /\
     presend fuel e addr btc_amount wid wp ap w
     = (Raise (Exception (String.append (wallet_file e wid) " does not exist")),
        w)) /\
  (os_path_isdir e (config_wallet_dir e) = false ->
   os_mkdir e (config_wallet_dir e) = true ->
     send fuel e addr btc_amount wid wp ap w
     = (Raise (Exception (String.append (wallet_file e wid) " does not exist")),
        set_made_dirs (config_wallet_dir e :: made_dirs w) w) /\
     presend fuel e addr btc_amount wid wp ap w
     = (Raise (Exception (String.append (wallet_file e wid) " does not exist")),
        set_made_dirs (config_wallet_dir e :: made_dirs w) w)) /\
  (os_path_isdir e (config_wallet_dir e) = false ->
   os_mkdir e (config_wallet_dir e) = false ->
     send fuel e addr btc_amount wid wp ap w = (Raise OSError, w) /\
     presend fuel e addr btc_amount wid wp ap w = (Raise OSError, w)) /\
  raised (fst (send fuel e addr btc_amount wid wp ap w)) = true /\
  raised (fst (presend fuel e addr btc_amount wid wp ap w)) = true /\
  same_state w (snd (send fuel e addr btc_amount wid wp ap w)) /\
  same_state w (snd (presend fuel e addr btc_amount wid wp ap w)).
Proof.
  intro H.
  unfold send, presend, bind. rewrite init_cmd_manager_result.
  unfold load_wallet, bind. rewrite get_wallet_path_result.
  destruct (os_path_isdir e (config_wallet_dir e));
    [| destruct (os_mkdir e (config_wallet_dir e))];
    rewrite ?H; cbn [fst snd raise raised];
    repeat split; intros; try discriminate; reflexivity.
Qed.

Lemma missing_wallet_witness :
  wallet_storage demo_env (wallet_file demo_env 8) = None /\
  send 0 demo_env "addr1" 0.001 8 "hunter2" "guess" (world_of [])
  = (Raise (Exception "wallets/wallet_8 does not exist"), world_of []) /\
  send 0 (with_no_wallet_dir true demo_env) "addr1" 0.001 8 "hunter2" "guess"
    (world_of [])
  = (Raise (Exception "wallets/wallet_8 does not exist"),
     set_made_dirs ["wallets"%string] (world_of [])) /\
  send 0 (with_no_wallet_dir false demo_env) "addr1" 0.001 8 "hunter2" "guess"
    (world_of [])
  = (Raise OSError, world_of []).
Proof.
  split; [reflexivity |].
  destruct (missing_wallet_is_reported_first 0 demo_env "addr1" 0.001 8
              "hunter2" "guess" (world_of []) eq_refl) as [H1 _].
  destruct (missing_wallet_is_reported_first 0
              (with_no_wallet_dir true demo_env) "addr1" 0.001 8
              "hunter2" "guess" (world_of []) eq_refl) as [_ [H2 _]].
  destruct (missing_wallet_is_reported_first 0
              (with_no_wallet_dir false demo_env) "addr1" 0.001 8
              "hunter2" "guess" (world_of []) eq_refl) as [_ [_ [H3 _]]].
  split; [apply H1; reflexivity | split].
  - apply H2; reflexivity.
  - apply H3; reflexivity.
Defined.

(** ** Estimating the size *)

(** X3: [get_tx_size] leaves no trace. It never touches the store or the
    mempool and never blocks; when it returns a size, the transaction it
    built for sizing is not among those the wallet records, and every other
    recorded transaction is still recorded; when the wallet cannot build
    the transaction it raises 'Failed to estimate tx size ...' and the
    state is as it was. *)
Theorem get_tx_size_leaves_no_trace e outputs w :
  db (snd (get_tx_size e outputs w)) = db w /\
  mempool (snd (get_tx_size e outputs w)) = mempool w /\
  match fst (get_tx_size e outputs w) with
  | Ok size =>
      exists tid,
        create_transaction e (final_outputs e outputs)
          (satoshis e 0.00000001%float) = Some (tid, size) /\
        ~ In tid (wallet_txs (snd (get_tx_size e outputs w))) /\
        forall t, In t (wallet_txs (snd (get_tx_size e outputs w))) <->
                  In t (wallet_txs w) /\ t <> tid
  | Raise x =>
      x = Exception "Failed to estimate tx size for wallet" /\
      snd (get_tx_size e outputs w) = w
  | Blocked => False
  end.
Proof.
  rewrite get_tx_size_result.
  destruct (create_transaction e _ _) as [[tid size] |]; simpl.
  - repeat split; trivial. exists tid. split; [reflexivity |].
    split; [apply not_in_removed |].
    intro t. rewrite filter_In. split.
    + intros [Hi Hne]. split; [exact Hi |].
      intros ->. rewrite String.eqb_refl in Hne. discriminate.
    + intros [Hi Hne]. split; [exact Hi |].
      destruct (String.eqb_spec t tid); [contradiction | reflexivity].
  - repeat split; trivial.
Qed.

(** ** Edge cases of the estimation phase *)

(** X4: the fee estimate for the 2-block target is read and divided though
    the result is never used: when the estimates the network has do not
    hold that target, [_get_tx_details] raises TypeError, and so do
    [presend] and [send], which then enqueues nothing. *)
Theorem missing_fee_target_raises_type_error
    fuel e addr btc_amount wid wp w sat tot outs t :
  _init_cmd_manager fuel e (Some (wid, wp)) true w = (Ok tt, w) ->
  int_of_float (btc_amount * COIN) = Ok sat ->
  add_unsent (get_unsent wid (db w)) sat [(addr, btc_amount)] = Ok (tot, outs) ->
  wait_for_fee_estimates fuel e 0 = Ok t ->
  dict_get 2 (get_fee_estimates e t) = None ->
  _get_tx_details fuel e wid addr btc_amount w = (Raise TypeError, w) /\
  presend fuel e addr btc_amount wid wp (config_api_password e) w
  = (Raise TypeError, w) /\
  send fuel e addr btc_amount wid wp (config_api_password e) w
  = (Raise TypeError, w).
Proof.
  intros Hinit Hsat Hadd Hwait Hget.
  assert (H : _get_tx_details fuel e wid addr btc_amount w = (Raise TypeError, w)).
  { unfold _get_tx_details, bind, lift, gets.
    rewrite Hsat, Hadd, Hwait, Hget. reflexivity. }
  split; [exact H |].
  unfold presend, send, bind. rewrite Hinit, String.eqb_refl.
  cbn [negb]. cbv beta iota. rewrite H. split; reflexivity.
Qed.

Lemma missing_fee_target_witness :
  dict_get 2 (get_fee_estimates
                (with_fee_estimates (fun _ => [(5, 80000); (10, 40000)])
                   demo_env) 0) = None /\
  send 5 (with_fee_estimates (fun _ => [(5, 80000); (10, 40000)]) demo_env)
    "addr1" 0.001 7 "hunter2" "secret" (world_of [])
  = (Raise TypeError, world_of []).
Proof.
  split; [reflexivity |].
  apply (missing_fee_target_raises_type_error 5
           (with_fee_estimates (fun _ => [(5, 80000); (10, 40000)]) demo_env)
           "addr1" 0.001 7 "hunter2" (world_of []) 100000 100000
           [("addr1"%string, 0.001%float)] 0%nat);
    vm_compute; reflexivity.
Defined.

(** X5: nothing validates the amount, and a batch whose amounts add up to
    zero (a request of less than a satoshi with nothing Queued) ends in the
    division of line 267: the estimation phase never returns a result,
    [send] enqueues nothing, and once the size and the fee have been
    estimated the exception is ZeroDivisionError. *)
Theorem zero_total_is_a_zero_division
    fuel e addr btc_amount wid wp ap w sat :
  int_of_float (btc_amount * COIN) = Ok sat ->
  sat + sum_amounts (get_unsent wid (db w)) = 0 ->
  returned (fst (_get_tx_details fuel e wid addr btc_amount w)) = false /\
  db (snd (send fuel e addr btc_amount wid wp ap w)) = db w /\
  (forall outs t v x tid size total_fee,
     add_unsent (get_unsent wid (db w)) sat [(addr, btc_amount)] = Ok (0, outs) ->
     wait_for_fee_estimates fuel e 0 = Ok t ->
     dict_get 2 (get_fee_estimates e t) = Some v ->
     int_truediv v 1000 = Ok x ->
     create_transaction e (final_outputs e outs) (satoshis e 0.00000001%float)
     = Some (tid, size) ->
     int_div_float (estimate_fee e size) COIN = Ok total_fee ->
     fst (_get_tx_details fuel e wid addr btc_amount w) = Raise ZeroDivisionError).
Proof.
  intros Hsat Hzero.
  assert (Hnr : returned (fst (_get_tx_details fuel e wid addr btc_amount w))
                = false).
  { destruct (_get_tx_details fuel e wid addr btc_amount w)
      as [[[[[f tf] tot] outs] | x |] w1] eqn:Hdet; trivial.
    destruct (get_tx_details_inv _ _ _ _ _ _ _ _ _ _ _ Hdet)
      as [sat' [t [tid [size [Hsat' [Hadd [_ [_ [_ [Hshare _]]]]]]]]]].
    assert (sat' = sat) by congruence. subst sat'.
    destruct (add_unsent_spec _ _ _ _ _ Hadd) as [Htot _].
    assert (Ht0 : tot = 0) by lia.
    unfold fee_share, int_truediv in Hshare. rewrite Ht0 in Hshare.
    simpl in Hshare. discriminate. }
  split; [exact Hnr | split].
  - apply send_store_before_details. exact Hnr.
  - intros outs t v x tid size total_fee Hadd Hwait Hget Hdiv Hc Hfee.
    unfold _get_tx_details, bind, lift, gets.
    rewrite Hsat, Hadd, Hwait, Hget, Hdiv. cbn [obind].
    rewrite get_tx_size_result, Hc, Hfee. reflexivity.
Qed.

Lemma zero_total_witness :
  int_of_float (1e-09 * COIN) = Ok 0 /\
  fst (_get_tx_details 5 demo_env 7 "addr1" 1e-09 (world_of []))
  = Raise ZeroDivisionError.
Proof.
  assert (Hs : int_of_float (1e-09 * COIN) = Ok 0) by (vm_compute; reflexivity).
  split; [exact Hs |].
  destruct (zero_total_is_a_zero_division 5 demo_env "addr1" 1e-09 7 "hunter2"
              "secret" (world_of []) 0 Hs eq_refl) as [_ [_ H]].
  apply (H [("addr1"%string, 1e-09%float)] 2%nat 100000 100%float
           "tx1"%string 80 8e-05%float);
    vm_compute; reflexivity.
Defined.

(** ** The share of a request that is alone in its batch *)

Lemma SFmul_one_l s m e :
  bounded prec emax m e = true ->
  SFmul prec emax (S754_finite false 4503599627370496 (-52)) (S754_finite s m e)
  = S754_finite s m e.
Proof.
  intro Hb. unfold bounded, canonical_mantissa in Hb.
  apply andb_prop in Hb. destruct Hb as [Hc He].
  apply Z.eqb_eq in Hc.
  unfold SFmul. cbn [xorb Pos.mul].
  unfold binary_round_aux, shr_fexp.
  cbn [Zdigits2 digits2_pos].
  repeat rewrite Pos2Z.inj_succ.
  replace (Z.succ _ + (-52 + e)) with (Z.pos (digits2_pos m) + e) by lia.
  rewrite Hc.
  replace (e - (-52 + e)) with 52 by lia.
  cbn [shr shr_record_of_loc SpecFloat.iter_pos shr_1 orb].
  cbn [round_nearest_even loc_of_shr_record shr_m shr_r shr_s Zdigits2].
  replace (-52 + e + 52) with e by lia.
  rewrite Hc, Z.sub_diag. cbn [shr shr_m].
  rewrite He. reflexivity.
Qed.

Lemma float_mul_one_l x : (1 * x)%float = x.
Proof.
  apply Prim2SF_inj. rewrite mul_spec.
  change (Prim2SF 1) with (S754_finite false 4503599627370496 (-52)).
  pose proof (Prim2SF_valid x) as Hv. unfold SF64mul.
  destruct (Prim2SF x) as [s | s | | s m e]; try reflexivity.
  apply SFmul_one_l. exact Hv.
Qed.

Lemma SFdiv_self (a : positive) s :
  SFdiv prec emax (S754_finite s a 0) (S754_finite s a 0)
  = S754_finite false 4503599627370496 (-52).
Proof.
  unfold SFdiv, SFdiv_core_binary.
  rewrite xorb_nilpotent.
  cbn [Zdigits2].
  rewrite !Z.add_0_r, !Z.sub_diag.
  change (fexp prec emax 0) with (-53).
  cbn [IntDef.Z.min IntDef.Z.compare IntDef.Z.sub IntDef.Z.add IntDef.Z.opp].
  change IntDef.Z.div_eucl with Z.div_eucl.
  change IntDef.Z.shiftl with Z.shiftl.
  assert (Hd : Z.div_eucl (Z.shiftl (Z.pos a) 53) (Z.pos a)
               = (9007199254740992, 0)).
  { rewrite Z.shiftl_mul_pow2 by lia. rewrite Z.mul_comm.
    pose proof (Z.div_mul (2 ^ 53) (Z.pos a) ltac:(lia)) as H1.
    pose proof (Z.mod_mul (2 ^ 53) (Z.pos a) ltac:(lia)) as H2.
    unfold Z.div, Z.modulo in H1, H2.
    destruct (Z.div_eucl (2 ^ 53 * Z.pos a) (Z.pos a)) as [q r].
    subst q r. reflexivity. }
  rewrite Hd.
  assert (Hl : new_location (Z.pos a) 0 = loc_Exact).
  { unfold new_location, new_location_even, new_location_odd.
    destruct (Z.even (Z.pos a)); reflexivity. }
  rewrite Hl. reflexivity.
Qed.

(** [n / n] is [1.0] for every int [n] but 0. *)
Lemma int_truediv_self n : n <> 0 -> int_truediv n n = Ok 1%float.
Proof.
  intro Hn. unfold int_truediv.
  destruct (Z.eqb_spec n 0) as [-> | _]; [contradiction |].
  destruct n as [| p | p]; [contradiction | |]; unfold Z2SF;
    rewrite SFdiv_self; reflexivity.
Qed.

(** X6: a request that is alone in its batch (nothing is Queued for the
    wallet) is attributed the whole fee, exactly: when [_get_tx_details]
    returns, its fee share is the total fee, the total is the request's own
    amount, which is not zero, and the only output is the request's; and
    [presend] then returns the total fee. *)
Theorem lone_request_bears_the_whole_fee
    fuel e addr btc_amount wid wp w this_tx_fee total_fee total outs w1 :
  get_unsent wid (db w) = [] ->
  _get_tx_details fuel e wid addr btc_amount w
  = (Ok (this_tx_fee, total_fee, total, outs), w1) ->
  this_tx_fee = total_fee /\
  int_of_float (btc_amount * COIN) = Ok total /\
  total <> 0 /\
  outs = [(addr, btc_amount)] /\
  (_init_cmd_manager fuel e (Some (wid, wp)) true w = (Ok tt, w) ->
   presend fuel e addr btc_amount wid wp (config_api_password e) w
   = (Ok total_fee, w1)).
Proof.
  intros Hempty Hdet.
  destruct (get_tx_details_inv _ _ _ _ _ _ _ _ _ _ _ Hdet)
    as [sat [t [tid [size [Hsat [Hadd [_ [_ [_ [Hshare _]]]]]]]]]].
  rewrite Hempty in Hadd. simpl in Hadd. inversion Hadd; subst total outs.
  assert (Hnz : sat <> 0).
  { intros ->. unfold fee_share, int_truediv in Hshare. simpl in Hshare.
    discriminate. }
  assert (Hfee : this_tx_fee = total_fee).
  { unfold fee_share in Hshare. rewrite (int_truediv_self sat Hnz) in Hshare.
    simpl in Hshare. rewrite float_mul_one_l in Hshare. congruence. }
  repeat split; trivial.
  intro Hinit. unfold presend, bind. rewrite Hinit, String.eqb_refl.
  cbn [negb]. cbv beta iota. rewrite Hdet. subst this_tx_fee. reflexivity.
Qed.

Lemma lone_request_witness :
  get_unsent 7 (db (world_of [queued_row 1 8 "addr9" 5000])) = [] /\
  presend 5 demo_env "addr1" 0.001 7 "hunter2" "secret"
    (world_of [queued_row 1 8 "addr9" 5000])
  = (Ok 8e-05%float, world_of [queued_row 1 8 "addr9" 5000]).
Proof.
  split; [reflexivity |].
  destruct (lone_request_bears_the_whole_fee 5 demo_env "addr1" 0.001 7
              "hunter2" (world_of [queued_row 1 8 "addr9" 5000])
              8e-05 8e-05 100000 [("addr1"%string, 0.001%float)]
              (world_of [queued_row 1 8 "addr9" 5000]))
    as [_ [_ [_ [_ H]]]]; [reflexivity | vm_compute; reflexivity |].
  apply H. reflexivity.
Defined.

(** ** The outputs of a batch *)

Lemma Forall2_output_addresses unsent qs :
  Forall2 is_output_of unsent qs -> map fst qs = map address unsent.
Proof.
  induction 1 as [| r o rs os [Ha _] _ IH]; simpl; [reflexivity |].
  rewrite Ha, IH. reflexivity.
Qed.

(** X7: the outputs of a batch follow the queue. The list [_get_tx_details]
    returns, which is the one [send] hands to [create_tx], starts with the
    new request's output, at the address and with the BTC amount the caller
    gave; then comes one output for each request Queued for the wallet, in
    the order of the queue, at the request's address and with its amount
    divided by 1e8; there is no other output, and the total is the sum of
    the new amount and of the Queued amounts. *)
Theorem batch_outputs_follow_the_queue
    fuel e wid addr btc_amount w this_tx_fee total_fee total outs w1 :
  _get_tx_details fuel e wid addr btc_amount w
  = (Ok (this_tx_fee, total_fee, total, outs), w1) ->
  (exists qs, outs = (addr, btc_amount) :: qs /\
              Forall2 is_output_of (get_unsent wid (db w)) qs) /\
  map fst outs = addr :: map address (get_unsent wid (db w)) /\
  List.length outs = S (List.length (get_unsent wid (db w))) /\
  exists sat,
    int_of_float (btc_amount * COIN) = Ok sat /\
    total = sat + sum_amounts (get_unsent wid (db w)).
Proof.
  intro Hdet.
  destruct (get_tx_details_inv _ _ _ _ _ _ _ _ _ _ _ Hdet)
    as [sat [t [tid [size [Hsat [Hadd _]]]]]].
  destruct (add_unsent_spec _ _ _ _ _ Hadd) as [Htot [qs [Ho Hf]]].
  simpl in Ho.
  assert (Hm : map fst outs = addr :: map address (get_unsent wid (db w))).
  { rewrite Ho. simpl. rewrite (Forall2_output_addresses _ _ Hf). reflexivity. }
  split; [exists qs; split; trivial | split; [exact Hm | split]].
  - rewrite <- (length_map fst), Hm. simpl. rewrite length_map. reflexivity.
  - exists sat. split; [exact Hsat | exact Htot].
Qed.

Lemma batch_outputs_witness :
  _get_tx_details 5 demo_env 7 "addr3" 0.03
    (world_of [queued_row 1 7 "addr1" 1000000; queued_row 2 8 "addr9" 5000;
               queued_row 3 7 "addr2" 2000000])
  = (Ok (0.00011%float, 0.00022%float, 6000000,
         [("addr3"%string, 0.03%float); ("addr1"%string, 0.01%float);
          ("addr2"%string, 0.02%float)]),
     world_of [queued_row 1 7 "addr1" 1000000; queued_row 2 8 "addr9" 5000;
               queued_row 3 7 "addr2" 2000000]) /\
  map fst [("addr3"%string, 0.03%float); ("addr1"%string, 0.01%float);
           ("addr2"%string, 0.02%float)]
  = "addr3"%string
    :: map address
         (get_unsent 7
            (db (world_of [queued_row 1 7 "addr1" 1000000;
                           queued_row 2 8 "addr9" 5000;
                           queued_row 3 7 "addr2" 2000000]))).
Proof.
  assert (H : _get_tx_details 5 demo_env 7 "addr3" 0.03
                (world_of [queued_row 1 7 "addr1" 1000000;
                           queued_row 2 8 "addr9" 5000;
                           queued_row 3 7 "addr2" 2000000])
              = (Ok (0.00011%float, 0.00022%float, 6000000,
                     [("addr3"%string, 0.03%float); ("addr1"%string, 0.01%float);
                      ("addr2"%string, 0.02%float)]),
                 world_of [queued_row 1 7 "addr1" 1000000;
                           queued_row 2 8 "addr9" 5000;
                           queued_row 3 7 "addr2" 2000000]))
    by (vm_compute; reflexivity).
  split; [exact H |].
  destruct (batch_outputs_follow_the_queue _ _ _ _ _ _ _ _ _ _ _ H)
    as [_ [Hm _]].
  exact Hm.
Defined.

(** ** What [send] leaves behind *)

(** X8: the request is inserted before the transaction is built. When the
    ratio is within the threshold and the wallet cannot build the batch's
    transaction, [send] raises 'Failed to create tx ...' without returning
    the new id, and yet the request has been enqueued: it is in the store,
    Queued, with the wallet's other Queued requests; nothing was broadcast
    and the wallet records no new transaction. *)
Theorem unbuildable_batch_still_enqueues
    fuel e addr btc_amount wid wp w this_tx_fee total_fee total outs w1 :
  _init_cmd_manager fuel e (Some (wid, wp)) true w = (Ok tt, w) ->
  _get_tx_details fuel e wid addr btc_amount w
  = (Ok (this_tx_fee, total_fee, total, outs), w1) ->
  within_threshold e total_fee total = Ok true ->
  create_transaction e (final_outputs e outs) (satoshis e total_fee) = None ->
  fst (send fuel e addr btc_amount wid wp (config_api_password e) w)
  = Raise (Exception "Failed to create tx for wallet") /\
  mempool (snd (send fuel e addr btc_amount wid wp (config_api_password e) w))
  = mempool w /\
  incl (wallet_txs (snd (send fuel e addr btc_amount wid wp
                           (config_api_password e) w))) (wallet_txs w) /\
  exists sat,
    int_of_float (btc_amount * COIN) = Ok sat /\
    rows (db (snd (send fuel e addr btc_amount wid wp (config_api_password e) w)))
    = rows (db w) ++ [new_request e addr sat wid (db w)] /\
    get_unsent wid (db (snd (send fuel e addr btc_amount wid wp
                               (config_api_password e) w)))
    = get_unsent wid (db w) ++ [new_request e addr sat wid (db w)].
Proof.
  intros Hinit Hdet Hwt Hc.
  destruct (send_cases _ _ _ _ _ _ _ _ _ _ _ _ _ _ Hinit Hdet Hwt)
    as [sat [Hsat [Hdb [Hmp Hsend]]]].
  rewrite Hsend. cbv zeta. rewrite Hc. simpl.
  destruct (get_tx_details_inv _ _ _ _ _ _ _ _ _ _ _ Hdet)
    as [sat' [t [tid [size [_ [_ [_ [_ [_ [_ Hw1]]]]]]]]]].
  split; [reflexivity | split; [exact Hmp | split]].
  - subst w1. simpl. intros x Hx. apply filter_In in Hx. apply Hx.
  - exists sat. repeat split; trivial.
    exact (get_unsent_insert addr sat wid (now_ms e) (db w)).
Qed.

Lemma unbuildable_batch_witness :
  create_transaction demo_env_no_funds [("addr1"%string, 1000000)] 7999 = None /\
  fst (send 5 demo_env_no_funds "addr1" 0.01 7 "hunter2" "secret" (world_of []))
  = Raise (Exception "Failed to create tx for wallet") /\
  get_unsent 7 (db (snd (send 5 demo_env_no_funds "addr1" 0.01 7 "hunter2"
                           "secret" (world_of []))))
  = [new_request demo_env_no_funds "addr1" 1000000 7 (db (world_of []))].
Proof.
  split; [reflexivity |].
  destruct (unbuildable_batch_still_enqueues 5 demo_env_no_funds "addr1" 0.01 7
              "hunter2" (world_of []) 8e-05 8e-05 1000000
              [("addr1"%string, 0.01%float)] (world_of []))
    as [H1 [_ [_ [sat [Hsat [_ H2]]]]]];
    [reflexivity | vm_compute; reflexivity | vm_compute; reflexivity
    | vm_compute; reflexivity |].
  split; [exact H1 |].
  assert (Hs : sat = 1000000).
  { vm_compute in Hsat. inversion Hsat. reflexivity. }
  rewrite Hs in H2. exact H2.
Defined.

(** X9: the handler of [send] that rolls the wallet back covers the update
    of the store as well as the broadcast. After a broadcast the network
    has accepted, the transaction is in the mempool whatever follows. When
    the store takes the update, [send] returns and the wallet keeps the
    record of the transaction it added before broadcasting. When the store
    does not, [send] raises the store's exception, the wallet's record of
    the accepted transaction is removed, and no request is marked: the new
    request and the wallet's Queued requests are all Queued still, to be
    batched again by the next [send]. *)
Theorem accepted_batch_is_kept_iff_the_update_succeeds
    fuel e addr btc_amount wid wp w this_tx_fee total_fee total outs w1 tid size :
  _init_cmd_manager fuel e (Some (wid, wp)) true w = (Ok tt, w) ->
  _get_tx_details fuel e wid addr btc_amount w
  = (Ok (this_tx_fee, total_fee, total, outs), w1) ->
  within_threshold e total_fee total = Ok true ->
  create_transaction e (final_outputs e outs) (satoshis e total_fee)
  = Some (tid, size) ->
  broadcast_transaction e (batch_tx e outs total_fee tid size) = true ->
  In (batch_tx e outs total_fee tid size)
     (mempool (snd (send fuel e addr btc_amount wid wp
                      (config_api_password e) w))) /\
  (db_update_failure e = None ->
     fst (send fuel e addr btc_amount wid wp (config_api_password e) w)
     = Ok (this_tx_fee, next_sr_id (db w)) /\
     In tid (wallet_txs (snd (send fuel e addr btc_amount wid wp
                                (config_api_password e) w))) /\
     get_unsent wid (db (snd (send fuel e addr btc_amount wid wp
                                (config_api_password e) w))) = []) /\
  (forall x, db_update_failure e = Some x ->
     fst (send fuel e addr btc_amount wid wp (config_api_password e) w)
     = Raise x /\
     ~ In tid (wallet_txs (snd (send fuel e addr btc_amount wid wp
                                  (config_api_password e) w))) /\
     exists sat,
       int_of_float (btc_amount * COIN) = Ok sat /\
       rows (db (snd (send fuel e addr btc_amount wid wp
                        (config_api_password e) w)))
       = rows (db w) ++ [new_request e addr sat wid (db w)] /\
       get_unsent wid (db (snd (send fuel e addr btc_amount wid wp
                                  (config_api_password e) w)))
       = get_unsent wid (db w) ++ [new_request e addr sat wid (db w)]).
Proof.
  intros Hinit Hdet Hwt Hc Hb.
  destruct (send_cases _ _ _ _ _ _ _ _ _ _ _ _ _ _ Hinit Hdet Hwt)
    as [sat [Hsat [Hdb [Hmp Hsend]]]].
  rewrite Hsend. cbv zeta. rewrite Hc, Hb.
  split; [| split].
  - destruct (db_update_failure e); left; reflexivity.
  - intros Hu. rewrite Hu. cbn [fst snd wallet_txs db].
    split; [reflexivity | split; [left; reflexivity |]].
    apply get_unsent_update.
  - intros x Hu. rewrite Hu. cbn [fst snd wallet_txs db].
    split; [reflexivity | split; [apply not_in_removed |]].
    exists sat. repeat split; trivial.
    exact (get_unsent_insert addr sat wid (now_ms e) (db w)).
Qed.

Lemma accepted_batch_witness :
  broadcast_transaction
    (with_update_failure (Some (Exception "PersistenceError")) demo_env)
    (batch_tx
       (with_update_failure (Some (Exception "PersistenceError")) demo_env)
       [("addr2"%string, 0.004%float); ("addr1"%string, 0.001%float)]
       0.00015 "tx2" 150) = true /\
  send 5 (with_update_failure (Some (Exception "PersistenceError")) demo_env)
    "addr2" 0.004 7 "hunter2" "secret"
    (world_of [queued_row 1 7 "addr1" 100000])
  = (Raise (Exception "PersistenceError"),
     {| db := {| rows := [queued_row 1 7 "addr1" 100000;
                          new_request demo_env "addr2" 400000 7
                            {| rows := []; next_sr_id := 2 |}];
                 next_sr_id := 3 |};
        wallet_txs := [];
        mempool := [batch_tx demo_env
                      [("addr2"%string, 0.004%float);
                       ("addr1"%string, 0.001%float)]
                      0.00015 "tx2" 150];
        made_dirs := [] |}) /\
  In "tx2"%string
     (wallet_txs (snd (send 5 demo_env "addr2" 0.004 7 "hunter2" "secret"
                         (world_of [queued_row 1 7 "addr1" 100000])))).
Proof.
  split; [reflexivity | split; [vm_compute; reflexivity |]].
  destruct (accepted_batch_is_kept_iff_the_update_succeeds 5 demo_env "addr2" 0.004 7
              "hunter2" (world_of [queued_row 1 7 "addr1" 100000])
              0.00011999999999999999 0.00015 500000
              [("addr2"%string, 0.004%float); ("addr1"%string, 0.001%float)]
              (world_of [queued_row 1 7 "addr1" 100000]) "tx2" 150)
    as [_ [H _]];
    [reflexivity | vm_compute; reflexivity | vm_compute; reflexivity
    | vm_compute; reflexivity | reflexivity |].
  destruct (H eq_refl) as [_ [Hi _]]. exact Hi.
Defined.

(** ** What a dry run leaves behind *)

Lemma quiet_refl w : quiet w w.
Proof. repeat split; trivial. apply incl_refl. Qed.

Lemma quiet_trans a b c : quiet a b -> quiet b c -> quiet a c.
Proof.
  intros [H1 [H2 H3]] [H4 [H5 H6]]. repeat split; try congruence.
  eapply incl_tran; eassumption.
Qed.

Lemma wallet_remove_quiet tid : preserves quiet (wallet_remove_transaction tid).
Proof.
  unfold wallet_remove_transaction. apply preserves_modify.
  intro w. repeat split; trivial. simpl.
  intros x Hx. apply filter_In in Hx. apply Hx.
Qed.

Lemma get_tx_details_quiet fuel e wid addr btc :
  preserves quiet (_get_tx_details fuel e wid addr btc).
Proof.
  unfold _get_tx_details, get_tx_size, create_tx.
  preserves_with quiet_refl quiet_trans ltac:(apply wallet_remove_quiet).
Qed.

Lemma presend_quiet fuel e addr btc wid wp ap :
  preserves quiet (presend fuel e addr btc wid wp ap).
Proof.
  unfold presend, _init_cmd_manager, load_wallet, _get_wallet_path, mkdir.
  preserves_with quiet_refl quiet_trans
    ltac:(first [ apply get_tx_details_quiet
                | repeat split; try reflexivity; apply incl_refl ]).
Qed.

(** X10: [presend] is a dry run: whatever its outcome, nothing is
    broadcast, no transaction is added to those the wallet records (the
    sizing transaction is removed again), and the store is unchanged. *)
Theorem presend_is_a_dry_run fuel e addr btc_amount wid wp ap w :
  mempool (snd (presend fuel e addr btc_amount wid wp ap w)) = mempool w /\
  incl (wallet_txs (snd (presend fuel e addr btc_amount wid wp ap w)))
       (wallet_txs w) /\
  db (snd (presend fuel e addr btc_amount wid wp ap w)) = db w.
Proof.
  destruct (presend_quiet fuel e addr btc_amount wid wp ap w) as [H1 [H2 H3]].
  repeat split; assumption.
Qed.

(** ** Sent requests and accepted transactions *)

Lemma backed_step_refl w : backed_step w w.
Proof.
  split; [apply incl_refl |]. intros r t Hr Ht. left. exists r. split; trivial.
Qed.

Lemma backed_step_trans a b c :
  backed_step a b -> backed_step b c -> backed_step a c.
Proof.
  intros [Hm1 H1] [Hm2 H2]. split; [eapply incl_tran; eassumption |].
  intros r t Hr Ht.
  destruct (H2 r t Hr Ht) as [[r1 [Hr1 Ht1]] | Hb]; [| right; exact Hb].
  destruct (H1 r1 t Hr1 Ht1) as [Ho | [tx [Hin Hid]]]; [left; exact Ho |].
  right. exists tx. split; [apply Hm2, Hin | exact Hid].
Qed.

Lemma same_store_backed w w' : same_store w w' -> backed_step w w'.
Proof.
  intros [Hdb Hmp]. split.
  - rewrite Hmp. apply incl_refl.
  - intros r t Hr Ht. left. exists r. rewrite <- Hdb. split; trivial.
Qed.

Lemma insert_backed e addr sat wid :
  preserves backed_step (db_insert_transaction e addr sat wid).
Proof.
  intro w. unfold db_insert_transaction, insert_transaction. simpl.
  split; [apply incl_refl |].
  intros r t Hr Ht. simpl in Hr. apply in_app_or in Hr.
  destruct Hr as [Hr | [<- | []]]; [| discriminate].
  left. exists r. split; trivial.
Qed.

(** The two steps of the [try] block of [send]. *)
Lemma broadcast_then_update_backed e tx wid total_fee total :
  preserves backed_step
    (async_broadcast e tx ;;
     db_update_transactions e wid (tx_txid tx) total_fee total).
Proof.
  intro w.
  unfold bind, async_broadcast, try_except, db_update_transactions, modify,
    wallet_remove_transaction, raise.
  destruct (broadcast_transaction e tx); simpl.
  - unfold update_transactions. destruct (db_update_failure e); simpl.
    + split; [intros x Hx; right; exact Hx |].
      intros r t Hr Ht. left. exists r. split; trivial.
    + split; [intros x Hx; right; exact Hx |].
      intros r t Hr Ht. apply in_map_iff in Hr. destruct Hr as [r0 [Hr0 Hin]].
      destruct (is_unsent wid r0).
      * subst r. simpl in Ht. inversion Ht; subst t.
        right. exists tx. split; [left; reflexivity | reflexivity].
      * subst r0. left. exists r. split; trivial.
  - apply same_store_backed. split; reflexivity.
Qed.

Lemma send_backed fuel e addr btc wid wp ap :
  preserves backed_step (send fuel e addr btc wid wp ap).
Proof.
  unfold send, wallet_add_transaction, wallet_remove_transaction.
  repeat first
    [ apply broadcast_then_update_backed
    | apply insert_backed
    | apply (preserves_weaken same_store _ _ same_store_backed);
      first [ apply init_cmd_manager_same_store
            | apply get_tx_details_same_store
            | apply create_tx_same_store ]
    | preserves_step backed_step_refl backed_step_trans
        ltac:(apply same_store_backed; split; reflexivity) ].
Qed.

Lemma run_backed fuel e c w : backed_step w (run fuel e c w).
Proof.
  destruct c as [addr btc wid wp ap | addr btc wid wp ap | id | limit];
    unfold run.
  - exact (same_store_backed _ _ (presend_same_store fuel e addr btc wid wp ap w)).
  - exact (send_backed fuel e addr btc wid wp ap w).
  - exact (same_store_backed _ _ (get_tx_same_store e id w)).
  - exact (same_store_backed _ _ (get_send_history_same_store fuel e limit w)).
Qed.

Lemma reachable_backed w w' : reachable w w' -> backed_step w w'.
Proof.
  induction 1 as [w | fuel e c w w' _ IH].
  - apply backed_step_refl.
  - eapply backed_step_trans; [apply run_backed | exact IH].
Qed.

(** X11: a request is marked with a txid only after the network has
    accepted a transaction with that txid. Over any sequence of calls, if
    every txid of the store was the txid of an accepted transaction at the
    start, so it is at the end; and the mempool never loses a
    transaction. *)
Theorem sent_requests_are_backed_by_accepted_transactions w w' :
  reachable w w' ->
  sent_rows_backed w ->
  sent_rows_backed w' /\ incl (mempool w) (mempool w').
Proof.
  intros Hreach Hinv.
  destruct (reachable_backed w w' Hreach) as [Hm Hstep].
  split; [| exact Hm].
  intros r t Hr Ht.
  destruct (Hstep r t Hr Ht) as [[r0 [Hr0 Ht0]] | Hb]; [| exact Hb].
  destruct (Hinv r0 t Hr0 Ht0) as [tx [Hin Hid]].
  exists tx. split; [apply Hm, Hin | exact Hid].
Qed.

Lemma sent_requests_backed_witness :
  sent_rows_backed (world_of [queued_row 1 7 "addr1" 100000]) /\
  sent_rows_backed
    (run 5 demo_env (Send "addr2" 0.004 7 "hunter2" "secret")
       (world_of [queued_row 1 7 "addr1" 100000])).
Proof.
  assert (H0 : sent_rows_backed (world_of [queued_row 1 7 "addr1" 100000])).
  { intros r t [<- | []] Ht. discriminate. }
  split; [exact H0 |].
  apply (sent_requests_are_backed_by_accepted_transactions
           (world_of [queued_row 1 7 "addr1" 100000])); [| exact H0].
  eapply reach_call, reach_refl.
Defined.

(** ** Request ids *)

Lemma wf_step_refl w : wf_step w w.
Proof. intro H; exact H. Qed.

Lemma wf_step_trans a b c : wf_step a b -> wf_step b c -> wf_step a c.
Proof. intros H1 H2 H. apply H2, H1, H. Qed.

Lemma same_db_wf w w' : db w' = db w -> wf_step w w'.
Proof. intros Hdb H. rewrite Hdb. exact H. Qed.

Lemma same_store_wf w w' : same_store w w' -> wf_step w w'.
Proof. intros [Hdb _]. apply same_db_wf, Hdb. Qed.

Lemma insert_wf e addr sat wid :
  preserves wf_step (db_insert_transaction e addr sat wid).
Proof.
  intros w [Hnd Hlt]. unfold db_insert_transaction, insert_transaction.
  simpl. split; simpl.
  - rewrite map_app. simpl. apply NoDup_app.
    + exact Hnd.
    + constructor; [intros [] | constructor].
    + intros a Ha [<- | []].
      apply in_map_iff in Ha. destruct Ha as [r [Hr Hin]].
      rewrite Forall_forall in Hlt. specialize (Hlt r Hin). lia.
  - apply Forall_app. split.
    + eapply Forall_impl; [| exact Hlt]. simpl. intros r Hr. lia.
    + constructor; [simpl; lia | constructor].
Qed.

Lemma update_wf e wid tid total_fee total :
  preserves wf_step (db_update_transactions e wid tid total_fee total).
Proof.
  intros w [Hnd Hlt]. unfold db_update_transactions, update_transactions.
  destruct (db_update_failure e); simpl; [split; assumption |].
  split; simpl.
  - rewrite map_map.
    rewrite (map_ext _ sr_id); [exact Hnd |].
    intro r. destruct (is_unsent wid r); reflexivity.
  - apply Forall_map. eapply Forall_impl; [| exact Hlt].
    intros r Hr. destruct (is_unsent wid r); exact Hr.
Qed.

Lemma send_wf fuel e addr btc wid wp ap :
  preserves wf_step (send fuel e addr btc wid wp ap).
Proof.
  unfold send, async_broadcast, wallet_add_transaction,
    wallet_remove_transaction.
  repeat first
    [ apply insert_wf
    | apply update_wf
    | apply (preserves_weaken same_store _ _ same_store_wf);
      first [ apply init_cmd_manager_same_store
            | apply get_tx_details_same_store
            | apply create_tx_same_store ]
    | preserves_step wf_step_refl wf_step_trans
        ltac:(apply same_db_wf; reflexivity) ].
Qed.

Lemma run_wf fuel e c w : wf_step w (run fuel e c w).
Proof.
  destruct c as [addr btc wid wp ap | addr btc wid wp ap | id | limit];
    unfold run.
  - exact (same_store_wf _ _ (presend_same_store fuel e addr btc wid wp ap w)).
  - exact (send_wf fuel e addr btc wid wp ap w).
  - exact (same_store_wf _ _ (get_tx_same_store e id w)).
  - exact (same_store_wf _ _ (get_send_history_same_store fuel e limit w)).
Qed.

(** X12: request ids stay unique. Over any sequence of calls, a store
    whose ids are pairwise distinct and below the next id to be issued
    stays so. *)
Theorem request_ids_stay_unique w w' :
  reachable w w' -> ledger_wf (db w) -> ledger_wf (db w').
Proof.
  induction 1 as [w | fuel e c w w' _ IH]; intro Hwf; [exact Hwf |].
  apply IH, (run_wf fuel e c w), Hwf.
Qed.

Lemma request_ids_witness :
  ledger_wf (db (world_of [queued_row 1 7 "addr1" 100000])) /\
  ledger_wf
    (db (run 5 demo_env (Send "addr2" 0.004 7 "hunter2" "secret")
           (world_of [queued_row 1 7 "addr1" 100000]))).
Proof.
  assert (H0 : ledger_wf (db (world_of [queued_row 1 7 "addr1" 100000]))).
  { split; simpl.
    - constructor; [intros [] | constructor].
    - constructor; [simpl; lia | constructor]. }
  split; [exact H0 |].
  apply (request_ids_stay_unique (world_of [queued_row 1 7 "addr1" 100000]));
    [| exact H0].
  eapply reach_call, reach_refl.
Defined.

(** ** Looking a request up *)

Lemma find_fresh_id (l : list row) id :
  Forall (fun r => sr_id r < id) l ->
  find (fun r => sr_id r =? id) l = None.
Proof.
  induction 1 as [| r l Hr _ IH]; simpl; [reflexivity |].
  destruct (Z.eqb_spec (sr_id r) id); [lia | exact IH].
Qed.



(** What a returned [send] went through. *)
Lemma send_ok_inv fuel e addr btc wid wp ap w f id :
  fst (send fuel e addr btc wid wp ap w) = Ok (f, id) ->
  ap = config_api_password e /\
  exists w0,
    _init_cmd_manager fuel e (Some (wid, wp)) true w = (Ok tt, w0) /\
    exists total_fee total outs w1 b,
      _get_tx_details fuel e wid addr btc w0
      = (Ok (f, total_fee, total, outs), w1) /\
      within_threshold e total_fee total = Ok b.
Proof.
  unfold send, bind. intro H.
  destruct (_init_cmd_manager fuel e (Some (wid, wp)) true w)
    as [[[] | x |] w0]; try discriminate.
  destruct (String.eqb_spec ap (config_api_password e)) as [Hap | Hap];
    [| discriminate].
  cbn [negb] in H. split; [exact Hap |].
  exists w0. split; [reflexivity |].
  destruct (_get_tx_details fuel e wid addr btc w0)
    as [[[[[f0 tf] tot] outs] | x |] w1]; try discriminate.
  unfold lift in H.
  destruct (int_truediv (config_batching_threshold e) 100)
    as [thr | x |] eqn:E1; try discriminate.
  destruct (int_of_float (tf * COIN)) as [fee_sat | x |] eqn:E2;
    try discriminate.
  destruct (int_truediv fee_sat tot) as [ratio | x |] eqn:E3; try discriminate.
  destruct (int_of_float (btc * COIN)) as [sat | x |]; try discriminate.
  destruct (db_insert_transaction e addr sat wid w1) as [[obj | x |] w2];
    try discriminate.
  match type of H with
  | fst (let (o, w') := ?blk in _) = _ =>
      destruct blk as [[[] | x |] w3]; try discriminate
  end.
  unfold ret in H. simpl in H. inversion H; subst f0 id.
  exists tf, tot, outs, w1, (PrimFloat.leb ratio thr).
  split; [reflexivity |].
  unfold within_threshold. rewrite E1, E2. simpl. rewrite E3. reflexivity.
Qed.

(** The store a returned [send] leaves: the old rows followed by the new
    request, all as they were or marked Sent. *)
Lemma send_ok_rows fuel e addr btc wid wp ap w f id :
  fst (send fuel e addr btc wid wp ap w) = Ok (f, id) ->
  id = next_sr_id (db w) /\
  exists sat g,
    int_of_float (btc * COIN) = Ok sat /\
    (forall r, sr_id (g r) = sr_id r /\ wallet_id (g r) = wallet_id r /\
               address (g r) = address r /\ amount (g r) = amount r /\
               timestamp_ms (g r) = timestamp_ms r) /\
    (mempool (snd (send fuel e addr btc wid wp ap w)) = mempool w ->
     forall r, g r = r) /\
    rows (db (snd (send fuel e addr btc wid wp ap w)))
    = map g (rows (db w) ++ [new_request e addr sat wid (db w)]).
Proof.
  intro H.
  destruct (send_ok_inv _ _ _ _ _ _ _ _ _ _ H)
    as [-> [w0 [Hinit [tf [tot [outs [w1 [b [Hdet Hwt]]]]]]]]].
  destruct (send_cases _ _ _ _ _ _ _ _ _ _ _ _ _ _ Hinit Hdet Hwt)
    as [sat [Hsat [Hdb [Hmp Hsend]]]].
  rewrite Hsend in *. cbv zeta in *.
  destruct b.
  - destruct (create_transaction e _ _) as [[tid size] |];
      [| simpl in H; discriminate].
    destruct (broadcast_transaction e _); simpl in H; [| discriminate].
    destruct (db_update_failure e); simpl in H; [discriminate |].
    inversion H. split; [reflexivity |].
    exists sat.
    exists (fun r => if is_unsent wid r
                     then mark_sent tid (db_fee_share e (amount r) tot tf) r
                     else r).
    split; [exact Hsat | split; [| split]].
    + intro r. destruct (is_unsent wid r); repeat split; reflexivity.
    + simpl. intro Hm. exfalso.
      apply (f_equal (@List.length transaction)) in Hm. simpl in Hm. lia.
    + reflexivity.
  - simpl in H. inversion H. split; [reflexivity |].
    exists sat, (fun r => r).
    split; [exact Hsat | split; [| split]].
    + intro r. repeat split; reflexivity.
    + intros _ r. reflexivity.
    + simpl. rewrite map_id. reflexivity.
Qed.



(** X14: [get_tx] on an id that has not been issued yet returns the empty
    dict: in a store whose ids are below the next id, for every id from the
    next one on, the result is [{}], nothing is raised and the state is
    unchanged. *)
Theorem unissued_id_gives_empty_dict e id w :
  ledger_wf (db w) ->
  next_sr_id (db w) <= id ->
  APICmdUtil.get_tx e id w = (Ok NoTx, w).
Proof.
  intros [_ Hlt] Hid.
  unfold APICmdUtil.get_tx, bind, gets, DbManager.get_tx.
  rewrite find_fresh_id; [reflexivity |].
  eapply Forall_impl; [| exact Hlt]. simpl. intros r Hr. lia.
Qed.

Lemma unissued_id_witness :
  ledger_wf (db (world_of [queued_row 1 7 "addr1" 100000])) /\
  APICmdUtil.get_tx demo_env 2 (world_of [queued_row 1 7 "addr1" 100000])
  = (Ok NoTx, world_of [queued_row 1 7 "addr1" 100000]).
Proof.
  assert (H0 : ledger_wf (db (world_of [queued_row 1 7 "addr1" 100000]))).
  { split; simpl.
    - constructor; [intros [] | constructor].
    - constructor; [simpl; lia | constructor]. }
  split; [exact H0 |].
  apply (unissued_id_gives_empty_dict demo_env 2 _ H0). simpl. lia.
Defined.

(** X15: the history shows the request just submitted first. In the state
    a returned [send] leaves, [get_send_history] with a limit of at least
    one, called with or without a network, returns a list that starts with
    the new request: the time it was inserted, the id [send] returned, and
    'queued' or 'sent', 'queued' when nothing was broadcast. *)
Theorem history_starts_with_the_new_request
    fuel e addr btc_amount wid wp ap w f id fuel' e' n :
  fst (send fuel e addr btc_amount wid wp ap w) = Ok (f, id) ->
  exists st rest,
    get_send_history fuel' e' (S n) (snd (send fuel e addr btc_amount wid wp ap w))
    = (Ok ((now_ms e, id, st) :: rest),
       snd (send fuel e addr btc_amount wid wp ap w)) /\
    (st = "queued"%string \/ st = "sent"%string) /\
    (mempool (snd (send fuel e addr btc_amount wid wp ap w)) = mempool w ->
     st = "queued"%string).
Proof.
  intro H.
  destruct (send_ok_rows _ _ _ _ _ _ _ _ _ _ H)
    as [Hid [sat [g [Hsat [Hg [Hsame Hrows]]]]]].
  set (new := new_request e addr sat wid (db w)) in *.
  exists (status_of (g new)).
  exists (map (fun tx => (timestamp_ms tx, sr_id tx, status_of tx))
            (firstn n (rev (map g (rows (db w)))))).
  split; [| split].
  - set (W := snd (send fuel e addr btc_amount wid wp ap w)) in *.
    unfold get_send_history, _init_cmd_manager, bind, ret, gets, get_all_txs.
    cbv beta iota.
    rewrite Hrows, map_app, rev_app_distr. simpl.
    destruct (Hg new) as [Hi [_ [_ [_ Ht]]]].
    rewrite Ht, Hi, Hid. reflexivity.
  - apply status_labels.
  - intro Hm. rewrite (Hsame Hm). reflexivity.
Qed.

Lemma history_witness :
  fst (send 5 demo_env "addr1" 0.001 7 "hunter2" "secret" (world_of []))
  = Ok (8e-05%float, 1) /\
  exists rest,
    fst (get_send_history 0 demo_env 1
           (snd (send 5 demo_env "addr1" 0.001 7 "hunter2" "secret"
                   (world_of []))))
    = Ok ((1600000000000, 1, "queued"%string) :: rest).
Proof.
  assert (H : fst (send 5 demo_env "addr1" 0.001 7 "hunter2" "secret"
                     (world_of [])) = Ok (8e-05%float, 1))
    by (vm_compute; reflexivity).
  split; [exact H |].
  destruct (history_starts_with_the_new_request 5 demo_env "addr1" 0.001 7
              "hunter2" "secret" (world_of []) 8e-05 1 0%nat demo_env 0%nat H)
    as [st [rest [Hh [_ Hq]]]].
  exists rest. rewrite Hh. simpl. rewrite (Hq eq_refl). reflexivity.
Defined.

(** ** Wallet files *)

Lemma append_inj_r (a b c : string) :
  String.append a b = String.append a c -> b = c.
Proof.
  induction a as [| ch a IH]; simpl; intro H; [exact H |].
  inversion H. apply IH. assumption.
Qed.

Lemma str_int_inj i j : str_int i = str_int j -> i = j.
Proof.
  unfold str_int. intro H.
  assert (Hn : forall z, Z.to_int z <> Decimal.Pos Decimal.Nil /\
                         Z.to_int z <> Decimal.Neg Decimal.Nil).
  { intros [| p | p]; simpl; split; try discriminate;
      intro Hp; inversion Hp as [Hq];
      exact (Unsigned.to_uint_nonnil p Hq). }
  apply (f_equal NilZero.int_of_string) in H.
  rewrite !NilZero.isi in H by apply Hn.
  inversion H as [Hi]. apply (f_equal Z.of_int) in Hi.
  rewrite !DecimalZ.of_to in Hi. exact Hi.
Qed.

Lemma get_wallet_path_ok {A} {S : PyStr A} e (a : A) w p :
  fst (_get_wallet_path e a w) = Ok p -> p = wallet_file e a.
Proof.
  rewrite get_wallet_path_result.
  destruct (os_path_isdir e _); [| destruct (os_mkdir e _)]; simpl;
    intro H; inversion H; reflexivity.
Qed.

Lemma wallet_file_inj {A B} {SA : PyStr A} {SB : PyStr B} e (a : A) (b : B) :
  wallet_file e a = wallet_file e b <-> str a = str b.
Proof.
  unfold wallet_file. split.
  - apply append_inj_r.
  - intros ->. reflexivity.
Qed.

(** X16: wallet files follow [str]. [_get_wallet_path] never waits. It
    returns '<wallet_dir>/wallet_<str(wallet_id)>', having made the wallet
    directory when it was not there, and touching nothing else; when the
    directory is not there and os.mkdir fails, it raises the OSError and
    nothing has changed. Two wallet ids get the same path exactly when
    their [str] is the same: two ints only when they are equal, while an
    int and the string of its digits (7 and '7') get one and the same
    wallet file. *)
Theorem wallet_paths_follow_str {A B : Type} {SA : PyStr A} {SB : PyStr B}
    e (a : A) (b : B) (i j : Z) w w' :
  match fst (_get_wallet_path e a w) with
  | Ok p =>
      p = String.append (String.append (config_wallet_dir e) "/wallet_") (str a) /\
      ((os_path_isdir e (config_wallet_dir e) = true /\
        snd (_get_wallet_path e a w) = w) \/
       (os_path_isdir e (config_wallet_dir e) = false /\
        os_mkdir e (config_wallet_dir e) = true /\
        snd (_get_wallet_path e a w)
        = set_made_dirs (config_wallet_dir e :: made_dirs w) w))
  | Raise x =>
      x = OSError /\
      os_path_isdir e (config_wallet_dir e) = false /\
      os_mkdir e (config_wallet_dir e) = false /\
      snd (_get_wallet_path e a w) = w
  | Blocked => False
  end /\
  (forall p q,
     fst (_get_wallet_path e a w) = Ok p ->
     fst (_get_wallet_path e b w') = Ok q ->
     (p = q <-> str a = str b)) /\
  (forall p q,
     fst (_get_wallet_path e i w) = Ok p ->
     fst (_get_wallet_path e j w') = Ok q ->
     (p = q <-> i = j)) /\
  fst (_get_wallet_path e (str_int i) w) = fst (_get_wallet_path e i w) /\
  fst (_get_wallet_path e "7"%string w) = fst (_get_wallet_path e 7 w).
Proof.
  split; [| split; [| split; [| split]]].
  - rewrite get_wallet_path_result. unfold wallet_file.
    destruct (os_path_isdir e _); [| destruct (os_mkdir e _)]; simpl.
    + split; [reflexivity | left; split; reflexivity].
    + split; [reflexivity | right; repeat split; reflexivity].
    + repeat split; reflexivity.
  - intros p q Hp Hq.
    rewrite (get_wallet_path_ok _ _ _ _ Hp), (get_wallet_path_ok _ _ _ _ Hq).
    apply wallet_file_inj.
  - intros p q Hp Hq.
    rewrite (get_wallet_path_ok _ _ _ _ Hp), (get_wallet_path_ok _ _ _ _ Hq).
    rewrite wallet_file_inj. split; [apply str_int_inj | intros ->; reflexivity].
  - rewrite !get_wallet_path_result. reflexivity.
  - rewrite !get_wallet_path_result. reflexivity.
Qed.

(** ** One wallet's batch and the other wallets *)

Lemma others_untouched_refl wid w : others_untouched wid w w.
Proof. intros i r Hi _. exact Hi. Qed.

Lemma others_untouched_trans wid a b c :
  others_untouched wid a b -> others_untouched wid b c ->
  others_untouched wid a c.
Proof. intros H1 H2 i r Hi Hw. apply H2; [apply H1 |]; assumption. Qed.

Lemma same_db_others wid w w' : db w' = db w -> others_untouched wid w w'.
Proof. intros Hdb i r Hi _. rewrite Hdb. exact Hi. Qed.

Lemma insert_others wid e addr sat wid' :
  preserves (others_untouched wid) (db_insert_transaction e addr sat wid').
Proof.
  intros w i r Hi _. unfold db_insert_transaction, insert_transaction. simpl.
  rewrite nth_error_app1; [exact Hi |].
  apply nth_error_Some. congruence.
Qed.

Lemma update_others e wid tid total_fee total :
  preserves (others_untouched wid)
    (db_update_transactions e wid tid total_fee total).
Proof.
  intros w i r Hi Hw. unfold db_update_transactions, update_transactions.
  destruct (db_update_failure e); simpl; [exact Hi |].
  rewrite nth_error_map, Hi. simpl.
  unfold is_unsent. destruct (Z.eqb_spec (wallet_id r) wid); [contradiction |].
  reflexivity.
Qed.

Lemma send_others fuel e addr btc wid wp ap :
  preserves (others_untouched wid) (send fuel e addr btc wid wp ap).
Proof.
  unfold send, async_broadcast, wallet_add_transaction,
    wallet_remove_transaction.
  repeat first
    [ apply insert_others
    | apply update_others
    | apply (preserves_weaken same_store _ _
               (fun w w' (H : same_store w w') =>
                  same_db_others wid w w' (proj1 H)));
      first [ apply init_cmd_manager_same_store
            | apply get_tx_details_same_store
            | apply create_tx_same_store ]
    | preserves_step (others_untouched_refl wid) (others_untouched_trans wid)
        ltac:(apply same_db_others; reflexivity) ].
Qed.

(** X17: a batch is one wallet's business. Whatever its outcome, [send]
    for a wallet leaves every request of every other wallet in its place
    and exactly as it was, Queued ones included. *)
Theorem send_leaves_other_wallets_alone
    fuel e addr btc_amount wid wp ap w i r :
  nth_error (rows (db w)) i = Some r ->
  wallet_id r <> wid ->
  nth_error (rows (db (snd (send fuel e addr btc_amount wid wp ap w)))) i
  = Some r.
Proof.
  intros Hi Hw.
  exact (send_others fuel e addr btc_amount wid wp ap w i r Hi Hw).
Qed.

Lemma other_wallets_witness :
  wallet_id (queued_row 1 8 "addr9" 5000) <> 7 /\
  nth_error
    (rows (db (snd (send 5 demo_env "addr2" 0.004 7 "hunter2" "secret"
                      (world_of [queued_row 1 8 "addr9" 5000;
                                 queued_row 2 7 "addr1" 100000]))))) 0
  = Some (queued_row 1 8 "addr9" 5000).
Proof.
  assert (H : wallet_id (queued_row 1 8 "addr9" 5000) <> 7)
    by (simpl; discriminate).
  split; [exact H |].
  apply (send_leaves_other_wallets_alone 5 demo_env "addr2" 0.004 7 "hunter2"
           "secret"
           (world_of [queued_row 1 8 "addr9" 5000;
                      queued_row 2 7 "addr1" 100000])
           0%nat (queued_row 1 8 "addr9" 5000) eq_refl H).
Defined.

(** ** The dry run and the real run *)

Lemma same_db_unsent wid w1 w2 : same_db w1 w2 -> same_unsent wid w1 w2.
Proof. unfold same_db, same_unsent. intros ->. reflexivity. Qed.

Lemma respects_weaken_same_db wid {A} (m : M A) :
  respects (same_unsent wid) m -> preserves same_store m ->
  respects same_db m.
Proof.
  intros Hr Hp w1 w2 H. split.
  - apply (Hr w1 w2), same_db_unsent, H.
  - unfold same_db in *. destruct (Hp w1) as [H1 _], (Hp w2) as [H2 _].
    congruence.
Qed.

Lemma insert_respects e addr sat wid :
  respects same_db (db_insert_transaction e addr sat wid).
Proof.
  intros w1 w2 H. unfold same_db in *.
  unfold db_insert_transaction, insert_transaction. simpl.
  rewrite H. split; reflexivity.
Qed.

Lemma update_respects e wid tid total_fee total :
  respects same_db (db_update_transactions e wid tid total_fee total).
Proof.
  intros w1 w2 H. unfold same_db in *.
  unfold db_update_transactions, update_transactions. rewrite H.
  destruct (db_update_failure e); simpl; split; trivial.
Qed.

Lemma send_respects fuel e addr btc wid wp ap :
  respects same_db (send fuel e addr btc wid wp ap).
Proof.
  unfold send, async_broadcast,
    wallet_add_transaction, wallet_remove_transaction.
  repeat first
    [ apply insert_respects
    | apply update_respects
    | apply init_cmd_manager_respects; apply same_db_ignores_made_dirs
    | apply create_tx_respects
    | apply (respects_weaken_same_db wid);
      [apply get_tx_details_respects | apply get_tx_details_same_store]
    | respects_step
        ltac:(intros w1 w2 H; unfold same_db in *; simpl; congruence) ].
Qed.

(** X18: the dry run tells what the real run returns. When [send] returns
    a fee share, [presend] with the same arguments in the same state and
    against the same answers of the collaborators returns the same fee
    share; and a [send] made after that [presend] returns what the [send]
    alone returns. *)
Theorem dry_run_matches_send fuel e addr btc_amount wid wp ap w f id :
  fst (send fuel e addr btc_amount wid wp ap w) = Ok (f, id) ->
  fst (presend fuel e addr btc_amount wid wp ap w) = Ok f /\
  fst (send fuel e addr btc_amount wid wp ap
         (snd (presend fuel e addr btc_amount wid wp ap w)))
  = Ok (f, id).
Proof.
  intro H.
  destruct (send_ok_inv _ _ _ _ _ _ _ _ _ _ H)
    as [Hap [w0 [Hinit [tf [tot [outs [w1 [b [Hdet _]]]]]]]]].
  split.
  - unfold presend, bind. rewrite Hinit. subst ap.
    rewrite String.eqb_refl. cbn [negb]. cbv beta iota. rewrite Hdet.
    reflexivity.
  - rewrite <- H. symmetry.
    apply (send_respects fuel e addr btc_amount wid wp ap).
    unfold same_db.
    destruct (presend_same_store fuel e addr btc_amount wid wp ap w) as [Hdb _].
    symmetry. exact Hdb.
Qed.

Lemma dry_run_witness :
  fst (send 5 demo_env "addr2" 0.004 7 "hunter2" "secret"
         (world_of [queued_row 1 7 "addr1" 100000]))
  = Ok (0.00011999999999999999%float, 2) /\
  fst (presend 5 demo_env "addr2" 0.004 7 "hunter2" "secret"
         (world_of [queued_row 1 7 "addr1" 100000]))
  = Ok 0.00011999999999999999%float.
Proof.
  assert (H : fst (send 5 demo_env "addr2" 0.004 7 "hunter2" "secret"
                     (world_of [queued_row 1 7 "addr1" 100000]))
              = Ok (0.00011999999999999999%float, 2))
    by (vm_compute; reflexivity).
  split; [exact H |].
  apply (dry_run_matches_send _ _ _ _ _ _ _ _ _ _ H).
Defined.
